(** * Channel bridge between Mattermost and MS Teams: model and properties

    A shallow embedding of the plugin's link commands
    ([server/command.go]) and of its start-up, post forwarding and
    subscription code (the [package main] part of
    [server/testutils/data.go]).

    The plugin object and the services it talks to are threaded through
    every operation as one explicit state.  A Go [nil] map is modelled
    as [None]: reading or deleting from it is harmless, assigning into
    it panics.  A panic ends the run. *)

From stdpp Require Import base option gmap strings list.

Open Scope string_scope.

(** ** Data *)

Record ChannelLink := mkChannelLink {
  MattermostTeam : string;
  MattermostChannel : string;
  MSTeamsTeam : string;
  MSTeamsChannel : string
}.

#[global] Instance ChannelLink_eq_dec : EqDecision ChannelLink.
Proof. solve_decision. Defined.

(** [model.ChannelType] *)
Inductive ChannelType :=
  | ChannelTypeOpen
  | ChannelTypePrivate
  | ChannelTypeDirect
  | ChannelTypeGroup.

#[global] Instance ChannelType_eq_dec : EqDecision ChannelType.
Proof. solve_decision. Defined.

(** The fields of [model.Channel] the plugin reads. *)
Record Channel := mkChannel {
  channel_Id : string;
  channel_TeamId : string;
  channel_Type : ChannelType
}.

(** The fields of [model.User] the plugin reads. *)
Record User := mkUser {
  user_Id : string;
  user_Username : string
}.

(** A value stored in [post.Props] (a [map[string]interface{}]): only
    its dynamic type matters to the plugin. *)
Inductive PropValue :=
  | PropBool (b : bool)
  | PropString (s : string)
  | PropNil.

(** The fields of [model.Post] the plugin reads; [post_Props = None] is
    the nil map. *)
Record Post := mkPost {
  post_Id : string;
  post_ChannelId : string;
  post_UserId : string;
  post_RootId : string;
  post_Message : string;
  post_Props : option (gmap string PropValue)
}.

Record CommandArgs := mkCommandArgs {
  args_UserId : string;
  args_ChannelId : string;
  args_TeamId : string
}.

Record CommandResponse := mkCommandResponse {
  ResponseType : string;
  ChannelId : string;
  Text : string;
  Username : string;
  IconURL : string
}.

Inductive Permission :=
  | PermissionManagePublicChannelProperties
  | PermissionManagePrivateChannelProperties.

(** A Go [(value, error)] pair. *)
Inductive Result (A : Type) :=
  | Success (a : A)
  | Failure (err : string).
Arguments Success {A} a.
Arguments Failure {A} err.

(** ** The services around the plugin *)

(** Calls made on the MS Teams clients, in the order they were made. *)
Inductive Call :=
  | CallNewApp
  | CallNewBot
  | CallSendMessage (teamID channelID parentID text : string)
  | CallGetChannel (teamID channelID : string)
  | CallSubscribeToChannel (teamID channelID notificationURL : string)
  | CallClearSubscriptions
  | CallRefreshSubscriptionPeriodically (subscriptionID : string)
  | CallUnsubscribe (link : ChannelLink).

#[global] Instance Call_eq_dec : EqDecision Call.
Proof. solve_decision. Defined.

(** [RefreshSubscriptionPeriodically] loops until its context is
    cancelled or a renewal fails; while it loops its caller is blocked. *)
Inductive RefreshOutcome :=
  | StillRunning
  | Finished (err : option string).

(** What the MS Teams client answers.  The client is not part of the
    plugin: each answer is an arbitrary function of the calls made so
    far and of the arguments. *)
Record Client := mkClient {
  NewApp : list Call → option string;
  NewBot : list Call → option string;
  SendMessage : list Call → string → string → string → string → Result string;
  GetChannel : list Call → string → string → Result unit;
  SubscribeToChannel : list Call → string → string → string → Result string;
  ClearSubscriptions : list Call → option string;
  RefreshSubscriptionPeriodically : list Call → string → RefreshOutcome;
  Unsubscribe : list Call → ChannelLink → option string
}.

(** What the Mattermost server answers through [p.API], followed by the
    functions the plugin calls whose code is elsewhere: [json.Marshal]
    and [json.Unmarshal] on the link map, the latter giving back the map
    as far as it was filled together with the error, and the plugin's
    own [checkEnabledTeamByTeamId].  [None] from [API_GetChannel] or
    [API_GetUser] is the non-nil [*model.AppError] case, in which the
    returned pointer is nil; [API_KVGetErr] and [API_KVSetErr] tell
    which keys the server refuses to read or write. *)
Record API := mkAPI {
  API_GetChannel : string → option Channel;
  API_GetUser : string → option User;
  API_HasPermissionToChannel : string → string → Permission → bool;
  API_SiteURL : string;
  API_KVGetErr : string → option string;
  API_KVSetErr : string → option string;
  json_Marshal : option (gmap string ChannelLink) → string;
  json_Unmarshal : string → gmap string ChannelLink * option string;
  checkEnabledTeamByTeamId : string → bool
}.

Inductive LogEntry :=
  | LogError (msg : string)
  | LogDebug (msg : string).

(** ** State *)

(** The [Plugin] struct, followed by the state of the services it acts
    on: the key-value store, the calls made on the MS Teams clients, the
    log, the ephemeral posts sent and the renewal tasks started. *)
Record Plugin := mkPlugin {
  userID : string;
  botID : string;
  msteamsAppClient : bool;
  msteamsBotClient : bool;
  subscriptionsToLinks : option (gmap string ChannelLink);
  channelsLinked : option (gmap string ChannelLink);
  kv : gmap string string;
  calls : list Call;
  logs : list LogEntry;
  ephemeralPosts : list (string * string * string);
  renewals : list string
}.

Definition set_msteamsAppClient (b : bool) (p : Plugin) : Plugin :=
  mkPlugin (userID p) (botID p) b (msteamsBotClient p)
    (subscriptionsToLinks p) (channelsLinked p) (kv p) (calls p) (logs p)
    (ephemeralPosts p) (renewals p).

Definition set_msteamsBotClient (b : bool) (p : Plugin) : Plugin :=
  mkPlugin (userID p) (botID p) (msteamsAppClient p) b
    (subscriptionsToLinks p) (channelsLinked p) (kv p) (calls p) (logs p)
    (ephemeralPosts p) (renewals p).

Definition set_subscriptionsToLinks (m : option (gmap string ChannelLink))
    (p : Plugin) : Plugin :=
  mkPlugin (userID p) (botID p) (msteamsAppClient p) (msteamsBotClient p)
    m (channelsLinked p) (kv p) (calls p) (logs p)
    (ephemeralPosts p) (renewals p).

Definition set_channelsLinked (m : option (gmap string ChannelLink))
    (p : Plugin) : Plugin :=
  mkPlugin (userID p) (botID p) (msteamsAppClient p) (msteamsBotClient p)
    (subscriptionsToLinks p) m (kv p) (calls p) (logs p)
    (ephemeralPosts p) (renewals p).

Definition set_kv (m : gmap string string) (p : Plugin) : Plugin :=
  mkPlugin (userID p) (botID p) (msteamsAppClient p) (msteamsBotClient p)
    (subscriptionsToLinks p) (channelsLinked p) m (calls p) (logs p)
    (ephemeralPosts p) (renewals p).

Definition set_calls (l : list Call) (p : Plugin) : Plugin :=
  mkPlugin (userID p) (botID p) (msteamsAppClient p) (msteamsBotClient p)
    (subscriptionsToLinks p) (channelsLinked p) (kv p) l (logs p)
    (ephemeralPosts p) (renewals p).

Definition set_logs (l : list LogEntry) (p : Plugin) : Plugin :=
  mkPlugin (userID p) (botID p) (msteamsAppClient p) (msteamsBotClient p)
    (subscriptionsToLinks p) (channelsLinked p) (kv p) (calls p) l
    (ephemeralPosts p) (renewals p).

Definition set_ephemeralPosts (l : list (string * string * string))
    (p : Plugin) : Plugin :=
  mkPlugin (userID p) (botID p) (msteamsAppClient p) (msteamsBotClient p)
    (subscriptionsToLinks p) (channelsLinked p) (kv p) (calls p) (logs p)
    l (renewals p).

Definition set_renewals (l : list string) (p : Plugin) : Plugin :=
  mkPlugin (userID p) (botID p) (msteamsAppClient p) (msteamsBotClient p)
    (subscriptionsToLinks p) (channelsLinked p) (kv p) (calls p) (logs p)
    (ephemeralPosts p) l.

(** ** Running code: state passing with panics *)

Inductive Res (A : Type) :=
  | Ok (a : A) (p : Plugin)
  | Panic.
Arguments Ok {A} a p.
Arguments Panic {A}.

Definition M (A : Type) : Type := Plugin → Res A.

#[global] Instance M_ret : MRet M := λ A a p, Ok a p.

#[global] Instance M_bind : MBind M := λ A B k m p,
  match m p with
  | Ok a p' => k a p'
  | Panic => Panic
  end.

Definition get : M Plugin := λ p, Ok p p.

Definition modify (f : Plugin → Plugin) : M unit := λ p, Ok tt (f p).

Definition panic {A} : M A := λ _, Panic.

(** Following a pointer: nil panics. *)
Definition deref {A} (ptr : option A) : M A :=
  match ptr with
  | Some a => mret a
  | None => panic
  end.

(** ** Go maps *)

Definition map_index {V} (m : option (gmap string V)) (k : string) : option V :=
  match m with
  | Some m => m !! k
  | None => None
  end.

Definition map_assign {V} (m : option (gmap string V)) (k : string) (v : V)
    : option (gmap string V) :=
  match m with
  | Some m => Some (<[k := v]> m)
  | None => None
  end.

Definition map_delete {V} (m : option (gmap string V)) (k : string)
    : option (gmap string V) :=
  match m with
  | Some m => Some (delete k m)
  | None => None
  end.

(** ** Constants *)

Definition msteamsLogoURL : string :=
  "https://upload.wikimedia.org/wikipedia/commons/c/c9/Microsoft_Office_Teams_%282018%E2%80%93present%29.svg".
Definition botDisplayName : string := "MS Teams".
Definition pluginID : string := "com.mattermost.matterbridge-plugin".
Definition CommandResponseTypeEphemeral : string := "ephemeral".

(** [strings.HasSuffix] *)
Definition HasSuffix (s suffix : string) : bool :=
  Nat.leb (String.length suffix) (String.length s) &&
  String.eqb
    (String.substring (String.length s - String.length suffix)
       (String.length suffix) s)
    suffix.

Section Bridge.

Context (api : API) (client : Client).

(** ** Calls on the services *)

Definition log (e : LogEntry) : M unit :=
  modify (λ p, set_logs (logs p ++ [e]) p).

(** A call on an MS Teams client: the client answers from the calls
    made before this one, and the call is then added to them. *)
Definition call {A} (c : Call) (answer : list Call → A) : M A :=
  p ← get;
  modify (set_calls (calls p ++ [c]));;
  mret (answer (calls p)).

(** The server's key-value store behind [p.API.KVGet] and
    [p.API.KVSet]: a map from keys to byte strings, read and written one
    key at a time.  A key never set reads as no bytes; a read or a write
    the server rejects returns the error and leaves the store as it was.
    Byte slices are Go strings here, [[]byte(s)] and [string(b)] being
    inverse to each other. *)
Definition KVGet (key : string) : M (Result string) :=
  p ← get;
  match API_KVGetErr api key with
  | Some err => mret (Failure err)
  | None => mret (Success (default "" (kv p !! key)))
  end.

Definition KVSet (key value : string) : M (option string) :=
  match API_KVSetErr api key with
  | Some err => mret (Some err)
  | None => modify (λ p, set_kv (<[key := value]> (kv p)) p);; mret None
  end.

(** The value half of a [(value, error)] pair, for callers that drop
    the error: a failed read gives nil bytes. *)
Definition value_of (r : Result string) : string :=
  match r with
  | Success v => v
  | Failure _ => ""
  end.

(** ** The plugin: the [package main] part of [server/testutils/data.go] *)

Definition getURL : string :=
  if HasSuffix (API_SiteURL api) "/"
  then API_SiteURL api +:+ "plugins/" +:+ pluginID
  else API_SiteURL api +:+ "/plugins/" +:+ pluginID.

Definition connectTeamsAppClient : M (option string) :=
  err ← call CallNewApp (NewApp client);
  match err with
  | Some e => mret (Some e)
  | None => modify (set_msteamsAppClient true);; mret None
  end.

Definition connectTeamsBotClient : M (option string) :=
  err ← call CallNewBot (NewBot client);
  match err with
  | Some e => mret (Some e)
  | None => modify (set_msteamsBotClient true);; mret None
  end.

Definition clearSubscriptions : M (option string) :=
  err ← call CallClearSubscriptions (ClearSubscriptions client);
  match err with
  | Some e => log (LogError "subscription deletion failed");; mret (Some e)
  | None => mret None
  end.

(** What a caller of [subscribeToChannel] sees: the returned error, or
    nothing yet while the renewal loop keeps the call from returning. *)
Inductive SubscribeResult :=
  | Blocked
  | Returned (err : option string).

Definition subscribeToChannel (link : ChannelLink) : M SubscribeResult :=
  let teamId := MSTeamsTeam link in
  let channelId := MSTeamsChannel link in
  let notificationURL := getURL +:+ "/" in
  r ← call (CallSubscribeToChannel teamId channelId notificationURL)
        (λ h, SubscribeToChannel client h teamId channelId notificationURL);
  match r with
  | Failure err => mret (Returned (Some err))
  | Success subscriptionID =>
      p ← get;
      match map_assign (subscriptionsToLinks p) subscriptionID link with
      | None => panic
      | Some m =>
          modify (set_subscriptionsToLinks (Some m));;
          o ← call (CallRefreshSubscriptionPeriodically subscriptionID)
                (λ h, RefreshSubscriptionPeriodically client h subscriptionID);
          match o with
          | StillRunning => mret Blocked
          | Finished (Some err) =>
              log (LogError "error updating subscription");;
              mret (Returned (Some err))
          | Finished None => mret (Returned None)
          end
      end
  end.

(** The [go p.subscribeToChannel(ctx, link)] statements of [start], one
    per stored link: each goroutine is run where it is started, up to
    the point where it returns or blocks in the renewal loop. *)
Fixpoint subscribeAll (links : list ChannelLink) : M unit :=
  match links with
  | [] => mret tt
  | link :: rest => subscribeToChannel link;; subscribeAll rest
  end.

Definition start : M unit :=
  err ← connectTeamsAppClient;
  match err with
  | Some _ => log (LogError "Unable to connect to the msteams")
  | None =>
  err ← connectTeamsBotClient;
  match err with
  | Some _ => log (LogError "Unable to connect to the msteams")
  | None =>
  r ← KVGet "channelsLinked";
  match r with
  | Failure _ => log (LogError "Error getting the channels linked")
  | Success channelsLinkedData =>
  let '(decoded, err) := json_Unmarshal api channelsLinkedData in
  match err with
  | Some _ => log (LogError "Error getting the channels linked")
  | None =>
      modify (set_channelsLinked (Some decoded));;
      modify (set_subscriptionsToLinks (Some ∅));;
      err ← clearSubscriptions;
      match err with
      | Some _ => log (LogError "Unable to clear all subscriptions")
      | None => mret tt
      end;;
      subscribeAll (snd <$> map_to_list decoded)
  end end end end.

(** The test of the anti-echo marker: [post.Props] is not nil and holds
    a [bool] under the key of this bridge. *)
Definition echoKey (p : Plugin) : string := "matterbridge_" +:+ userID p.

Definition carriesMarker (p : Plugin) (post : Post) : bool :=
  match post_Props post with
  | None => false
  | Some props =>
      match props !! echoKey p with
      | Some (PropBool _) => true
      | _ => false
      end
  end.

(** The two writes at the end of [Send]: the pair of post IDs, stored
    once under each ID. *)
Definition RecordMapping (localPostID remotePostID : string) : M unit :=
  KVSet ("mattermost_teams_" +:+ localPostID) remotePostID;;
  KVSet ("teams_mattermost_" +:+ remotePostID) localPostID;;
  mret tt.

(** The read at the start of [Send]: the MS Teams message a Mattermost
    post was sent as, or the empty string. *)
Definition ResolveRemoteParent (localPostID : string) : M string :=
  r ← KVGet ("mattermost_teams_" +:+ localPostID);
  mret (value_of r).

(** The debug line is logged without its leading line breaks. *)
Definition Send (link : ChannelLink) (user : option User) (post : Post)
    : M (string * option string) :=
  log (LogDebug "=> Receiving message");;
  u ← deref user;
  let text := user_Username u +:+ "@mattermost: " +:+ post_Message post in
  parentID ← (if decide (post_RootId post ≠ "")
              then ResolveRemoteParent (post_RootId post)
              else mret "");
  r ← call (CallSendMessage (MSTeamsTeam link) (MSTeamsChannel link) parentID text)
        (λ h, SendMessage client h (MSTeamsTeam link) (MSTeamsChannel link)
                parentID text);
  match r with
  | Failure err =>
      log (LogError "Error creating post");;
      mret ("", Some err)
  | Success newMessageId =>
      (if decide (post_Id post ≠ "" ∧ newMessageId ≠ "")
       then RecordMapping (post_Id post) newMessageId
       else mret tt);;
      mret (newMessageId, None)
  end.

(** [go p.Send(link, user, post)] is run where it is started. *)
Definition MessageHasBeenPosted (post : Post) : M unit :=
  p ← get;
  if carriesMarker p post then mret tt else
  channel ← deref (API_GetChannel api (post_ChannelId post));
  match map_index (channelsLinked p)
          (channel_TeamId channel +:+ ":" +:+ post_ChannelId post) with
  | None => mret tt
  | Some link =>
      let user := API_GetUser api (post_UserId post) in
      Send link user post;;
      mret tt
  end.

(** ** [command.go] *)

Definition cmdError (channelID detailedError : string) : CommandResponse :=
  mkCommandResponse CommandResponseTypeEphemeral channelID detailedError
    botDisplayName msteamsLogoURL.

(** [&model.CommandResponse{}] *)
Definition emptyResponse : CommandResponse := mkCommandResponse "" "" "" "" "".

Definition sendBotEphemeralPost (userID channelID message : string) : M unit :=
  modify (λ p, set_ephemeralPosts
                 (ephemeralPosts p ++ [(userID, channelID, message)]) p).

(** Modelled from the spec: [saveChannelsLinked], called by both
    commands, whose code is not in the files at hand.  The spec has the
    whole set of links written as one record, replaced on every save,
    and the caller waiting for the write; the record is read back by
    [start] under the key ["channelsLinked"]. *)
Definition saveChannelsLinked : M (option string) :=
  p ← get;
  KVSet "channelsLinked" (json_Marshal api (channelsLinked p)).

(** Modelled from the spec: the [subscribeToChannel] that the link
    command calls, which returns the subscription ID and leaves the
    renewal loop to its caller; the files at hand have only the variant
    above.  The spec's [Subscribe] asks MS Teams for a subscription on
    the link's channel with a callback URL and, when that succeeds,
    enters the pair in the subscription index. *)
Definition subscribeToChannelOnce (link : ChannelLink) : M (Result string) :=
  let notificationURL := getURL +:+ "/" in
  r ← call (CallSubscribeToChannel (MSTeamsTeam link) (MSTeamsChannel link)
             notificationURL)
        (λ h, SubscribeToChannel client h (MSTeamsTeam link)
                (MSTeamsChannel link) notificationURL);
  match r with
  | Failure err => mret (Failure err)
  | Success subscriptionID =>
      p ← get;
      match map_assign (subscriptionsToLinks p) subscriptionID link with
      | None => panic
      | Some m =>
          modify (set_subscriptionsToLinks (Some m));;
          mret (Success subscriptionID)
      end
  end.

(** Modelled from the spec: [unsubscribeFromChannel], whose code is not
    in the files at hand.  The spec's [Unsubscribe] asks MS Teams to
    delete the link's subscription and takes the link out of the
    subscription index; a subscription MS Teams no longer knows counts
    as deleted, which is left to the client's answer here. *)
Definition unsubscribeFromChannel (link : ChannelLink) : M (option string) :=
  err ← call (CallUnsubscribe link) (λ h, Unsubscribe client h link);
  match err with
  | Some e => mret (Some e)
  | None =>
      modify (λ p, set_subscriptionsToLinks
                     (filter (λ kv, kv.2 ≠ link) <$> subscriptionsToLinks p) p);;
      mret None
  end.

(** [go p.refreshSubscriptionPeridically(p.stopContext, subscriptionID)]:
    the renewal task is noted as started. *)
Definition refreshSubscriptionPeridically (subscriptionID : string) : M unit :=
  modify (λ p, set_renewals (renewals p ++ [subscriptionID]) p).

Definition canLinkChannel (channel : Channel) (args : CommandArgs) : bool :=
  (bool_decide (channel_Type channel = ChannelTypeOpen) &&
   API_HasPermissionToChannel api (args_UserId args) (args_ChannelId args)
     PermissionManagePublicChannelProperties)
  || (bool_decide (channel_Type channel = ChannelTypePrivate) &&
      API_HasPermissionToChannel api (args_UserId args) (args_ChannelId args)
        PermissionManagePrivateChannelProperties).

Definition linkKey (channel : Channel) : string :=
  channel_TeamId channel +:+ ":" +:+ channel_Id channel.

Definition executeLinkCommand (args : CommandArgs) (parameters : list string)
    : M CommandResponse :=
  match parameters with
  | [] | [_] =>
      mret (cmdError (args_ChannelId args)
        "Invalid link command, please pass the MS Teams team id and channel id as parameters.")
  | parameters0 :: parameters1 :: _ =>
  if negb (checkEnabledTeamByTeamId api (args_TeamId args)) then
    mret (cmdError (args_ChannelId args)
      "This team is not enabled for MS Teams sync.")
  else
  match API_GetChannel api (args_ChannelId args) with
  | None =>
      mret (cmdError (args_ChannelId args)
        "Unable to get the current channel information.")
  | Some channel =>
  if negb (canLinkChannel channel args) then
    mret (cmdError (args_ChannelId args)
      "Unable to link the channel. You have to be a channel admin to link it.")
  else
  p ← get;
  match map_index (channelsLinked p) (linkKey channel) with
  | Some _ =>
      mret (cmdError (args_ChannelId args)
        "A link for this channel already exists, please remove unlink the channel before you link a new one")
  | None =>
  r ← call (CallGetChannel parameters0 parameters1)
        (λ h, GetChannel client h parameters0 parameters1);
  match r with
  | Failure _ =>
      mret (cmdError (args_ChannelId args) "MS Teams channel not found.")
  | Success _ =>
  let link := mkChannelLink (channel_TeamId channel) (channel_Id channel)
                parameters0 parameters1 in
  match map_assign (channelsLinked p) (linkKey channel) link with
  | None => panic
  | Some m =>
  modify (set_channelsLinked (Some m));;
  r ← subscribeToChannelOnce link;
  match r with
  | Failure _ =>
      mret (cmdError (args_ChannelId args)
        "Unable to subscribe to channel, probably it is already link to another channel.")
  | Success subscriptionID =>
  refreshSubscriptionPeridically subscriptionID;;
  err ← saveChannelsLinked;
  match err with
  | Some _ =>
      mret (cmdError (args_ChannelId args)
        "Unable to store the new link, please try again.")
  | None =>
      sendBotEphemeralPost (args_UserId args) (args_ChannelId args)
        "The MS Teams channel is now linked to this Mattermost channel";;
      mret emptyResponse
  end end end end end end end.

Definition executeUnlinkCommand (args : CommandArgs) : M CommandResponse :=
  match API_GetChannel api (args_ChannelId args) with
  | None =>
      mret (cmdError (args_ChannelId args)
        "Unable to get the current channel information.")
  | Some channel =>
  if negb (canLinkChannel channel args) then
    mret (cmdError (args_ChannelId args)
      "Unable to unlink the channel, you has to be a channel admin to unlink it.")
  else
  p ← get;
  match map_index (channelsLinked p) (linkKey channel) with
  | None => mret (cmdError (args_ChannelId args) "Link doesn't exist.")
  | Some link =>
  err ← unsubscribeFromChannel link;
  match err with
  | Some _ =>
      mret (cmdError (args_ChannelId args)
        "Unable to store unsubscribe from channel, please try again.")
  | None =>
  modify (λ p, set_channelsLinked
                 (map_delete (channelsLinked p) (linkKey channel)) p);;
  err ← saveChannelsLinked;
  match err with
  | Some _ =>
      mret (cmdError (args_ChannelId args)
        "Unable to store the new link, please try again.")
  | None =>
      sendBotEphemeralPost (args_UserId args) (args_ChannelId args)
        "The MS Teams channel is no longer linked to this Mattermost channel";;
      mret emptyResponse
  end end end end.

(** The registry lookup both commands make for the channel at hand. *)
Definition Lookup (p : Plugin) (channel : Channel) : option ChannelLink :=
  map_index (channelsLinked p) (linkKey channel).

End Bridge.

(** ** [command.go]: the show command and the dispatch *)

Definition msteamsCommand : string := "msteamssync".

(** What [GetTeam] and [GetChannel] of the MS Teams client return on
    success, as far as the show command reads it. *)
Record TeamInfo := mkTeamInfo {
  team_ID : string;
  team_DisplayName : string
}.

Record ChannelInfo := mkChannelInfo {
  msChannel_ID : string;
  msChannel_DisplayName : string
}.

(** The double quote of the show command's text. *)
Definition dquote : string := String (Ascii.ascii_of_nat 34) EmptyString.

Section Dispatch.

Context (api : API) (client : Client).

(** The answers of the MS Teams client that only the show command
    reads: the team found by [GetTeam], and the channel a successful
    [GetChannel] returns.  A team lookup is a read on MS Teams and is
    not entered in [calls], which has no place for it. *)
Context (GetTeam : list Call → string → Result TeamInfo).
Context (channelDetails : list Call → string → string → ChannelInfo).

(** [strings.Fields], from Go's library: the words of a command line. *)
Context (Fields : string → list string).

Definition showText (msteamsChannel : ChannelInfo) (msteamsTeam : TeamInfo)
    : string :=
  "This channel is linked to the MS Teams Channel " +:+ dquote
    +:+ msChannel_DisplayName msteamsChannel +:+ dquote
    +:+ " (with id: " +:+ msChannel_ID msteamsChannel
    +:+ ") in the Team " +:+ dquote
    +:+ team_DisplayName msteamsTeam +:+ dquote
    +:+ " (with the id: " +:+ team_ID msteamsTeam +:+ ").".

Definition executeShowCommand (args : CommandArgs) : M CommandResponse :=
  match API_GetChannel api (args_ChannelId args) with
  | None =>
      mret (cmdError (args_ChannelId args)
        "Unable to get the current channel information.")
  | Some channel =>
  p ← get;
  match map_index (channelsLinked p) (linkKey channel) with
  | None => mret (cmdError (args_ChannelId args) "Link doesn't exists.")
  | Some link =>
  match GetTeam (calls p) (MSTeamsTeam link) with
  | Failure _ =>
      mret (cmdError (args_ChannelId args)
        "Unable to get the MS Teams team information.")
  | Success msteamsTeam =>
  r ← call (CallGetChannel (MSTeamsTeam link) (MSTeamsChannel link))
        (λ h, match GetChannel client h (MSTeamsTeam link)
                      (MSTeamsChannel link) with
              | Success _ =>
                  Success (channelDetails h (MSTeamsTeam link)
                             (MSTeamsChannel link))
              | Failure err => Failure err
              end);
  match r with
  | Failure _ =>
      mret (cmdError (args_ChannelId args)
        "Unable to get the MS Teams channel information.")
  | Success msteamsChannel =>
      sendBotEphemeralPost (args_UserId args) (args_ChannelId args)
        (showText msteamsChannel msteamsTeam);;
      mret emptyResponse
  end end end end.

(** [args.Command] is passed beside [args].  [split[0]] on a line
    without words is an index out of range. *)
Definition ExecuteCommand (args : CommandArgs) (argsCommand : string)
    : M CommandResponse :=
  let split := Fields argsCommand in
  match split with
  | [] => panic
  | command :: afterCommand =>
  let action := match afterCommand with
                | action :: _ => action
                | [] => ""
                end in
  let parameters := match afterCommand with
                    | _ :: (_ :: _) as parameters => parameters
                    | _ => []
                    end in
  if decide (command ≠ "/" +:+ msteamsCommand) then mret emptyResponse
  else if decide (action = "link") then
    executeLinkCommand api client args parameters
  else if decide (action = "unlink") then
    executeUnlinkCommand api client args
  else if decide (action = "show") then
    executeShowCommand args
  else
    mret (cmdError (args_ChannelId args)
      "Unknown command. Valid options: link, unlink and show.")
  end.

End Dispatch.

(** ** The test data: the [package testutils] part of
    [server/testutils/data.go] *)

Module testutils.

Definition GetTeamID : string := "pqoeurndhroajdemq4nfmw".
Definition GetChannelID : string := "bnqnzipmnir4zkkj95ggba5pde".
Definition GetUserID : string := "sfmq19kpztg5iy47ebe51hb31w".
Definition GetTeamsUserID : string := "rioegneonqimomsoqwiew3qeo".
Definition GetID : string := "sfmq19kpztg5iy47ebe51hb31w".
Definition GetTeamsTeamID : string := "test-teams-team".
Definition GetTeamsChannelID : string := "test-teams-channel".

(** [model.ChannelMember], as far as the test data fills it. *)
Record ChannelMember := mkChannelMember {
  member_UserId : string;
  member_ChannelId : string
}.

(** [storemodels.ChannelLink] *)
Record StoredLink := mkStoredLink {
  MattermostTeamID : string;
  MattermostChannelID : string;
  MattermostTeamName : string;
  MattermostChannelName : string;
  stored_MSTeamsTeam : string;
  stored_MSTeamsChannel : string
}.

(** [storemodels.ConnectedUser] *)
Record ConnectedUser := mkConnectedUser {
  MattermostUserID : string;
  TeamsUserID : string
}.

(** [for i := 0; i < count; i++ { acc = append(acc, x) }], with at most
    [fuel] rounds. *)
Fixpoint appendLoop {A} (fuel : nat) (i count : Z) (x : A) (acc : list A)
    : list A :=
  match fuel with
  | O => acc
  | S fuel =>
      if (i <? count)%Z then appendLoop fuel (i + 1)%Z count x (acc ++ [x])
      else acc
  end.

Definition GetChannelMembers (count : Z) : list ChannelMember :=
  appendLoop (Z.to_nat count) 0 count
    (mkChannelMember GetID GetChannelID) [].

Definition GetChannelLinks (count : Z) : list StoredLink :=
  appendLoop (Z.to_nat count) 0 count
    (mkStoredLink GetTeamID GetChannelID "Test MM team" "Test MM channel"
       GetTeamsTeamID GetTeamsChannelID) [].

Definition GetConnectedUsers (count : Z) : list ConnectedUser :=
  appendLoop (Z.to_nat count) 0 count
    (mkConnectedUser GetUserID GetTeamsUserID) [].

End testutils.

(** ** Reading runs and stores *)

Definition result_of {A} (r : Res A) : option A :=
  match r with
  | Ok a _ => Some a
  | Panic => None
  end.

Definition state_of {A} (r : Res A) : option Plugin :=
  match r with
  | Ok _ p => Some p
  | Panic => None
  end.

(** The store after [KVSet key value], whether the write was accepted
    or not. *)
Definition kvWrite (api : API) (m : gmap string string) (key value : string)
    : gmap string string :=
  match API_KVSetErr api key with
  | Some _ => m
  | None => <[key := value]> m
  end.

Definition isSendMessage (c : Call) : bool :=
  match c with
  | CallSendMessage _ _ _ _ => true
  | _ => false
  end.

Definition isSubscriptionCall (c : Call) : bool :=
  match c with
  | CallSubscribeToChannel _ _ _
  | CallClearSubscriptions
  | CallRefreshSubscriptionPeriodically _ => true
  | _ => false
  end.

(** The link the link command builds for a channel. *)
Definition linkFor (channel : Channel) (teamID channelID : string) : ChannelLink :=
  mkChannelLink (channel_TeamId channel) (channel_Id channel) teamID channelID.

Definition storeFailedText : string :=
  "Unable to store the new link, please try again.".

(** The MS Teams ID on record for a Mattermost post, as [Send] reads
    it: empty when there is none or when the read fails. *)
Definition storedRemoteID (api : API) (p : Plugin) (localPostID : string)
    : string :=
  match API_KVGetErr api ("mattermost_teams_" +:+ localPostID) with
  | Some _ => ""
  | None => default "" (kv p !! ("mattermost_teams_" +:+ localPostID))
  end.

(** The parent ID and the text [Send] passes to [SendMessage]. *)
Definition threadParent (api : API) (p : Plugin) (post : Post) : string :=
  if decide (post_RootId post ≠ "")
  then storedRemoteID api p (post_RootId post)
  else "".

Definition messageText (u : User) (post : Post) : string :=
  user_Username u +:+ "@mattermost: " +:+ post_Message post.

(** ** A small installation

    One open channel [C1] of team [T1], one user [U], a freshly started
    plugin with no links, and an MS Teams client that hands out the
    message IDs [remote1] and then [remote2]. *)

Definition demoChannel : Channel := mkChannel "C1" "T1" ChannelTypeOpen.
Definition demoUser : User := mkUser "uid" "U".

Definition demoMarshal (m : option (gmap string ChannelLink)) : string :=
  match m with
  | None => "null"
  | Some m => "{" +:+ String.concat "," (fst <$> map_to_list m) +:+ "}"
  end.

Definition demoUnmarshal (data : string)
    : gmap string ChannelLink * option string :=
  if decide (data = "{}") then (∅, None)
  else (∅, Some "unexpected end of JSON input").

(** [storeErr] is what the server answers to a write of the link
    snapshot. *)
Definition demoAPI (storeErr : option string) : API :=
  mkAPI
    (λ id, if decide (id = "C1") then Some demoChannel else None)
    (λ id, if decide (id = "uid") then Some demoUser else None)
    (λ _ _ _, true)
    "https://mm.example.com"
    (λ _, None)
    (λ key, if decide (key = "channelsLinked") then storeErr else None)
    demoMarshal
    demoUnmarshal
    (λ _, true).

(** [channelFound] tells whether MS Teams knows the channel asked for. *)
Definition demoClient (channelFound : bool) : Client :=
  mkClient
    (λ _, None)
    (λ _, None)
    (λ h _ _ _ _,
       Success (if existsb isSendMessage h then "remote2" else "remote1"))
    (λ _ _ _, if channelFound then Success tt else Failure "not found")
    (λ _ _ _ _, Success "sub1")
    (λ _, None)
    (λ _ _, StillRunning)
    (λ _ _, None).

Definition demoPlugin : Plugin :=
  mkPlugin "botuser" "botuser" true true (Some ∅) (Some ∅) ∅ [] [] [] [].

Definition demoArgs : CommandArgs := mkCommandArgs "uid" "C1" "T1".

Definition demoPost : Post := mkPost "post1" "C1" "uid" "" "hello" None.

Definition demoLink : ChannelLink := mkChannelLink "T1" "C1" "rT" "rC".

(** The plugin after [/msteamssync link rT rC] in [C1]. *)
Definition demoLinked : Plugin :=
  default demoPlugin
    (state_of (executeLinkCommand (demoAPI None) (demoClient true)
                 demoArgs ["rT"; "rC"] demoPlugin)).

(** The same installation with the server refusing to write the link
    snapshot. *)
Definition storeDown : API := demoAPI (Some "store down").

(** An MS Teams client that is connected but gets every request
    refused. *)
Definition downClient : Client :=
  mkClient
    (λ _, None)
    (λ _, None)
    (λ _ _ _ _ _, Failure "remote unavailable")
    (λ _ _ _, Failure "remote unavailable")
    (λ _ _ _ _, Failure "remote unavailable")
    (λ _, Some "remote unavailable")
    (λ _ _, Finished (Some "remote unavailable"))
    (λ _ _, Some "remote unavailable").

(** A post the bridge made itself. *)
Definition demoEchoPost : Post :=
  mkPost "post2" "C1" "uid" "" "hello"
    (Some {[ "matterbridge_botuser" := PropBool true ]}).

(** The plugin after [/msteamssync unlink] in the linked [C1]. *)
Definition demoUnlinked : Plugin :=
  default demoLinked
    (state_of (executeUnlinkCommand (demoAPI None) (demoClient true)
                 demoArgs demoLinked)).

(** The plugin after each command when the snapshot is refused. *)
Definition demoLinkRefused : Plugin :=
  default demoPlugin
    (state_of (executeLinkCommand storeDown (demoClient true)
                 demoArgs ["rT"; "rC"] demoPlugin)).


(** A post without its properties. *)
Definition withoutProps (post : Post) : Post :=
  mkPost (post_Id post) (post_ChannelId post) (post_UserId post)
    (post_RootId post) (post_Message post) None.

(** The small installation with the site URL written with a trailing
    slash. *)
Definition demoAPISlash : API :=
  mkAPI
    (API_GetChannel (demoAPI None))
    (API_GetUser (demoAPI None))
    (API_HasPermissionToChannel (demoAPI None))
    "https://mm.example.com/"
    (API_KVGetErr (demoAPI None))
    (API_KVSetErr (demoAPI None))
    demoMarshal
    demoUnmarshal
    (λ _, true).

(** A reply to [post1], and the plugin after [post1] was forwarded. *)
Definition demoReply : Post := mkPost "post4" "C1" "uid" "post1" "welcome" None.

Definition demoForwarded : Plugin :=
  default demoLinked
    (state_of (Send (demoAPI None) (demoClient true) demoLink (Some demoUser)
                 demoPost demoLinked)).

Definition alreadyLinkedText : string :=
  "A link for this channel already exists, please remove unlink the channel before you link a new one".

Definition isSubscribeToChannel (c : Call) : bool :=
  match c with
  | CallSubscribeToChannel _ _ _ => true
  | _ => false
  end.

(** ** Further parts of the small installation *)

(** The plugin after the post handler saw [post1] in the linked [C1]. *)
Definition demoHandled : Plugin :=
  default demoLinked
    (state_of (MessageHasBeenPosted (demoAPI None) (demoClient true)
                 demoPost demoLinked)).

(** A post with a string, not a boolean, under the bridge's key. *)
Definition demoStringPost : Post :=
  mkPost "post3" "C1" "uid" "" "hello"
    (Some {[ "matterbridge_botuser" := PropString "true" ]}).

(** A direct channel [D1], in which the user holds every permission. *)
Definition demoDirectAPI : API :=
  mkAPI
    (λ id, if decide (id = "D1")
           then Some (mkChannel "D1" "" ChannelTypeDirect) else None)
    (API_GetUser (demoAPI None))
    (λ _ _ _, true)
    "https://mm.example.com"
    (λ _, None)
    (λ _, None)
    demoMarshal
    demoUnmarshal
    (λ _, true).

Definition demoDirectArgs : CommandArgs := mkCommandArgs "uid" "D1" "".

(** An MS Teams client that knows every channel and grants no
    subscription. *)
Definition noSubscriptionClient : Client :=
  mkClient
    (λ _, None)
    (λ _, None)
    (SendMessage (demoClient true))
    (λ _ _ _, Success tt)
    (λ _ _ _ _, Failure "subscription refused")
    (λ _, None)
    (λ _ _, StillRunning)
    (λ _ _, None).


(** An MS Teams client whose renewal loop ends with an error. *)
Definition expiringClient : Client :=
  mkClient
    (λ _, None)
    (λ _, None)
    (SendMessage (demoClient true))
    (λ _ _ _, Success tt)
    (λ _ _ _ _, Success "sub1")
    (λ _, None)
    (λ _ _, Finished (Some "expired"))
    (λ _ _, None).

(** A plugin that was never started: both maps are nil. *)
Definition demoFresh : Plugin :=
  mkPlugin "botuser" "botuser" false false None None ∅ [] [] [] [].

Definition demoFreshStarted : Plugin :=
  default demoFresh
    (state_of (start (demoAPI None) (demoClient true) demoFresh)).

(** The linked plugin after an unlink command whose unsubscription MS
    Teams refused. *)
Definition demoUnsubscribeRefused : Plugin :=
  default demoLinked
    (state_of (executeUnlinkCommand (demoAPI None) downClient demoArgs
                 demoLinked)).

(** The small installation with a decoder that reads back the snapshot
    of the one link of [C1]. *)
Definition roundTripAPI : API :=
  mkAPI
    (API_GetChannel (demoAPI None))
    (API_GetUser (demoAPI None))
    (λ _ _ _, true)
    "https://mm.example.com"
    (λ _, None)
    (λ _, None)
    demoMarshal
    (λ data, if decide (data = "{T1:C1}")
             then ({[ "T1:C1" := demoLink ]}, None)
             else demoUnmarshal data)
    (λ _, true).

Definition demoRestarted : Plugin :=
  default demoLinked
    (state_of (start roundTripAPI (demoClient true) demoLinked)).

Definition demoGetTeam (h : list Call) (teamID : string) : Result TeamInfo :=
  Success (mkTeamInfo teamID "Team").

Definition demoChannelDetails (h : list Call) (teamID channelID : string)
    : ChannelInfo :=
  mkChannelInfo channelID "Channel".

(** The words of a line, for lines of plain text with blanks between the
    words. *)
Fixpoint splitBlanks (s word : string) : list string :=
  match s with
  | EmptyString => if decide (word = "") then [] else [word]
  | String c rest =>
      if Ascii.eqb c (Ascii.ascii_of_nat 32)
      then if decide (word = "") then splitBlanks rest ""
           else word :: splitBlanks rest ""
      else splitBlanks rest (word +:+ String c EmptyString)
  end.

Definition demoFields (s : string) : list string := splitBlanks s "".

(** * Properties *)

(** Opens the state-passing definitions down to the matches on what the
    services answer. *)
Ltac run :=
  repeat (progress (cbv beta delta
    [mbind M_bind mret M_ret get modify panic deref call log
     KVGet KVSet RecordMapping ResolveRemoteParent saveChannelsLinked
     sendBotEphemeralPost refreshSubscriptionPeridically] iota; simpl)).

(** The two key spaces of the translator never meet. *)
Lemma mapping_keys_apart (a b : string) :
  "mattermost_teams_" +:+ a ≠ "teams_mattermost_" +:+ b.
Proof. simpl. discriminate. Qed.

Section StoreFacts.

Context (api : API).

Lemma KVSet_run key value p :
  ∃ p', KVSet api key value p = Ok (API_KVSetErr api key) p'
        ∧ kv p' = kvWrite api (kv p) key value
        ∧ calls p' = calls p
        ∧ channelsLinked p' = channelsLinked p
        ∧ subscriptionsToLinks p' = subscriptionsToLinks p.
Proof.
  unfold kvWrite. run.
  destruct (API_KVSetErr api key); run; eauto 10.
Qed.

Lemma RecordMapping_run localPostID remotePostID p :
  ∃ p', RecordMapping api localPostID remotePostID p = Ok tt p'
        ∧ kv p' = kvWrite api
                    (kvWrite api (kv p)
                       ("mattermost_teams_" +:+ localPostID) remotePostID)
                    ("teams_mattermost_" +:+ remotePostID) localPostID
        ∧ calls p' = calls p
        ∧ channelsLinked p' = channelsLinked p
        ∧ subscriptionsToLinks p' = subscriptionsToLinks p.
Proof.
  unfold RecordMapping.
  destruct (KVSet_run ("mattermost_teams_" +:+ localPostID) remotePostID p)
    as (p1 & E1 & K1 & C1 & L1 & S1).
  destruct (KVSet_run ("teams_mattermost_" +:+ remotePostID) localPostID p1)
    as (p2 & E2 & K2 & C2 & L2 & S2).
  exists p2. unfold mbind, M_bind. rewrite E1, E2. simpl.
  rewrite K2, K1, C2, C1, L2, L1, S2, S1. done.
Qed.

Lemma ResolveRemoteParent_run localPostID p :
  ResolveRemoteParent api localPostID p = Ok (storedRemoteID api p localPostID) p.
Proof.
  unfold storedRemoteID. run. destruct (API_KVGetErr api _); reflexivity.
Qed.

(** Both entries of a recorded pair can be read back when the store
    takes the two writes. *)
Lemma kvWrite_pair m a b :
  API_KVSetErr api ("mattermost_teams_" +:+ a) = None →
  API_KVSetErr api ("teams_mattermost_" +:+ b) = None →
  let m' := kvWrite api (kvWrite api m ("mattermost_teams_" +:+ a) b)
              ("teams_mattermost_" +:+ b) a in
  m' !! ("mattermost_teams_" +:+ a) = Some b
  ∧ m' !! ("teams_mattermost_" +:+ b) = Some a.
Proof.
  intros Ha Hb m'. subst m'. unfold kvWrite. rewrite Ha, Hb. split.
  - rewrite lookup_insert_ne by (apply not_eq_sym, mapping_keys_apart).
    apply lookup_insert_eq.
  - apply lookup_insert_eq.
Qed.

End StoreFacts.

Section SendFacts.

Context (api : API) (client : Client).

(** [Send] up to the answer of [SendMessage]: one call, made with the
    parent and text computed from the post. *)
Lemma Send_run link u post p :
  ∃ p1, kv p1 = kv p
        ∧ calls p1 =
            (calls p ++
               [CallSendMessage (MSTeamsTeam link) (MSTeamsChannel link)
                  (threadParent api p post) (messageText u post)])%list
        ∧ channelsLinked p1 = channelsLinked p
        ∧ subscriptionsToLinks p1 = subscriptionsToLinks p
        ∧ Send api client link (Some u) post p =
          match SendMessage client (calls p) (MSTeamsTeam link)
                  (MSTeamsChannel link) (threadParent api p post)
                  (messageText u post) with
          | Failure err =>
              Ok ("", Some err)
                (set_logs (logs p1 ++ [LogError "Error creating post"])%list p1)
          | Success newMessageId =>
              if decide (post_Id post ≠ "" ∧ newMessageId ≠ "")
              then match RecordMapping api (post_Id post) newMessageId p1 with
                   | Ok _ p2 => Ok (newMessageId, None) p2
                   | Panic => Panic
                   end
              else Ok (newMessageId, None) p1
          end.
Proof.
  exists (set_calls
            (calls p ++
               [CallSendMessage (MSTeamsTeam link) (MSTeamsChannel link)
                  (threadParent api p post) (messageText u post)])%list
            (set_logs (logs p ++ [LogDebug "=> Receiving message"])%list p)).
  split_and!; try reflexivity.
  unfold Send, threadParent, messageText.
  destruct (decide (post_RootId post ≠ "")) as [Hroot|Hroot].
  - unfold mbind, M_bind at 1 2 3; simpl.
    unfold log, modify at 1; simpl.
    rewrite ResolveRemoteParent_run. simpl.
    unfold mbind, M_bind, call, get, modify, mret, M_ret, log; simpl.
    change (storedRemoteID api (set_logs _ p) (post_RootId post))
      with (storedRemoteID api p (post_RootId post)).
    destruct (SendMessage _ _ _ _ _ _); simpl; [|reflexivity].
    destruct (decide _); simpl; [|reflexivity].
    destruct (RecordMapping _ _ _ _); reflexivity.
  - unfold mbind, M_bind, call, get, modify, mret, M_ret, log; simpl.
    destruct (SendMessage _ _ _ _ _ _); simpl; [|reflexivity].
    destruct (decide _); simpl; [|reflexivity].
    destruct (RecordMapping _ _ _ _); reflexivity.
Qed.

End SendFacts.

Section ForwardingProperties.

Context (api : API) (client : Client).

(** C3.  When [SendMessage] answers with an error, [Send] returns that
    error with an empty message ID and the key-value store is exactly
    what it was: no mapping entry is written in either direction.  The
    one call made on MS Teams is the failed [SendMessage]. *)
Theorem Send_failure_writes_no_mapping link u post p err :
  SendMessage client (calls p) (MSTeamsTeam link) (MSTeamsChannel link)
    (threadParent api p post) (messageText u post) = Failure err →
  ∃ p', Send api client link (Some u) post p = Ok ("", Some err) p'
        ∧ kv p' = kv p
        ∧ calls p' =
            (calls p ++
               [CallSendMessage (MSTeamsTeam link) (MSTeamsChannel link)
                  (threadParent api p post) (messageText u post)])%list.
Proof.
  intros Hfail.
  destruct (Send_run api client link u post p) as (p1 & K & C & _ & _ & E).
  rewrite Hfail in E. eexists. split; [exact E|]. split; assumption.
Qed.

(** C10.  When [SendMessage] succeeds, [Send] returns the new message ID
    and no error.  If the post ID or the new message ID is empty the
    store is left as it was; if both are non-empty the store is the old
    one after the two writes, local-to-remote and remote-to-local. *)
Theorem Send_mapping_needs_both_ids link u post p newMessageId :
  SendMessage client (calls p) (MSTeamsTeam link) (MSTeamsChannel link)
    (threadParent api p post) (messageText u post) = Success newMessageId →
  ∃ p', Send api client link (Some u) post p = Ok (newMessageId, None) p'
        ∧ (post_Id post = "" ∨ newMessageId = "" → kv p' = kv p)
        ∧ (post_Id post ≠ "" ∧ newMessageId ≠ "" →
           kv p' = kvWrite api
                     (kvWrite api (kv p)
                        ("mattermost_teams_" +:+ post_Id post) newMessageId)
                     ("teams_mattermost_" +:+ newMessageId) (post_Id post)).
Proof.
  intros Hok.
  destruct (Send_run api client link u post p) as (p1 & K & C & _ & _ & E).
  rewrite Hok in E.
  destruct (decide (post_Id post ≠ "" ∧ newMessageId ≠ "")) as [Hboth|Hnot].
  - destruct (RecordMapping_run api (post_Id post) newMessageId p1)
      as (p2 & E2 & K2 & _).
    rewrite E2 in E. exists p2. split; [exact E|]. split.
    + intros [H|H]; destruct Hboth; congruence.
    + intros _. rewrite K2, K. reflexivity.
  - exists p1. split; [exact E|]. split.
    + intros _. exact K.
    + intros Hboth. contradiction.
Qed.

(** C1, as the code has it.  Recording [a ↦ b] and then [a ↦ c] leaves
    [ResolveRemoteParent a] answering [c]: the later write replaces the
    earlier one, provided the store takes the writes and the read under
    the key of [a]. *)
Theorem later_mapping_replaces_earlier (a b c : string) p :
  API_KVSetErr api ("mattermost_teams_" +:+ a) = None →
  API_KVGetErr api ("mattermost_teams_" +:+ a) = None →
  ∃ p', (RecordMapping api a b;; RecordMapping api a c;;
         ResolveRemoteParent api a) p = Ok c p'.
Proof.
  intros Hset Hget.
  destruct (RecordMapping_run api a b p) as (p1 & E1 & K1 & _).
  destruct (RecordMapping_run api a c p1) as (p2 & E2 & K2 & _).
  exists p2. unfold mbind, M_bind. rewrite E1, E2.
  rewrite ResolveRemoteParent_run. f_equal.
  unfold storedRemoteID. rewrite Hget, K2.
  unfold kvWrite at 1.
  assert (kvWrite api (kv p1) ("mattermost_teams_" +:+ a) c
            !! ("mattermost_teams_" +:+ a) = Some c) as Hc.
  { unfold kvWrite. rewrite Hset. apply lookup_insert_eq. }
  destruct (API_KVSetErr api ("teams_mattermost_" +:+ c)).
  - rewrite Hc. reflexivity.
  - rewrite lookup_insert_ne by (apply not_eq_sym, mapping_keys_apart).
    rewrite Hc. reflexivity.
Qed.

(** C4.  A post whose properties hold a boolean under the bridge's key
    is dropped by the post handler: the handler returns with the whole
    state as it found it, so no call reaches MS Teams and nothing is
    stored, whatever the links are. *)
Theorem marked_post_is_dropped post p props (b : bool) :
  post_Props post = Some props →
  props !! echoKey p = Some (PropBool b) →
  MessageHasBeenPosted api client post p = Ok tt p.
Proof.
  intros Hprops Hkey.
  unfold MessageHasBeenPosted, carriesMarker. run.
  rewrite Hprops, Hkey. reflexivity.
Qed.

(** C5, as the code has it.  In a channel linked to [link], a top-level
    post without the marker makes exactly one call on MS Teams,
    [SendMessage] with the link's team and channel, an empty parent and
    the text [<username>@mattermost: <message>]; when that call succeeds
    with a non-empty ID for a post with a non-empty ID, and the store
    takes the writes, the pair is on record in both directions. *)
Theorem linked_post_is_sent_once post p channel link u remotePostID :
  carriesMarker p post = false →
  API_GetChannel api (post_ChannelId post) = Some channel →
  map_index (channelsLinked p)
    (channel_TeamId channel +:+ ":" +:+ post_ChannelId post) = Some link →
  API_GetUser api (post_UserId post) = Some u →
  post_RootId post = "" →
  SendMessage client (calls p) (MSTeamsTeam link) (MSTeamsChannel link) ""
    (user_Username u +:+ "@mattermost: " +:+ post_Message post)
    = Success remotePostID →
  post_Id post ≠ "" →
  remotePostID ≠ "" →
  API_KVSetErr api ("mattermost_teams_" +:+ post_Id post) = None →
  API_KVSetErr api ("teams_mattermost_" +:+ remotePostID) = None →
  ∃ p', MessageHasBeenPosted api client post p = Ok tt p'
        ∧ calls p' =
            (calls p ++
               [CallSendMessage (MSTeamsTeam link) (MSTeamsChannel link) ""
                  (user_Username u +:+ "@mattermost: " +:+ post_Message post)])%list
        ∧ kv p' !! ("mattermost_teams_" +:+ post_Id post) = Some remotePostID
        ∧ kv p' !! ("teams_mattermost_" +:+ remotePostID) = Some (post_Id post).
Proof.
  intros Hmark Hch Hlink Hu Hroot Hsend Hid Hrid Hs1 Hs2.
  destruct (Send_run api client link u post p) as (p1 & K & C & _ & _ & E).
  assert (threadParent api p post = "") as Hparent.
  { unfold threadParent. rewrite Hroot. reflexivity. }
  rewrite Hparent in *. unfold messageText in *. rewrite Hsend in E.
  destruct (decide (post_Id post ≠ "" ∧ remotePostID ≠ "")) as [_|Hn];
    [|exfalso; apply Hn; split; assumption].
  destruct (RecordMapping_run api (post_Id post) remotePostID p1)
    as (p2 & E2 & K2 & C2 & _).
  rewrite E2 in E. exists p2.
  split.
  - unfold MessageHasBeenPosted.
    unfold mbind at 1, M_bind at 1, get. rewrite Hmark.
    unfold mbind at 1, M_bind at 1. rewrite Hch. simpl.
    rewrite Hlink, Hu.
    unfold mbind, M_bind. rewrite E. reflexivity.
  - split; [rewrite C2, C; reflexivity|].
    rewrite K2, K. apply kvWrite_pair; assumption.
Qed.

End ForwardingProperties.

Section CommandFacts.

Context (api : API) (client : Client).

(** Opens a command down to its branches and splits on every answer. *)
Ltac branches :=
  unfold executeLinkCommand, executeUnlinkCommand, subscribeToChannelOnce,
    unsubscribeFromChannel, Lookup, map_index, map_assign, map_delete;
  run;
  repeat (case_match; run; simplify_eq/=; try discriminate).

(** A link command that got as far as writing the snapshot: it passed
    every check, found the key free, put the new link in the registry
    and attempted the write; its answer tells whether the write was
    taken. *)
Lemma link_reaches_store args parameters p r p' :
  executeLinkCommand api client args parameters p = Ok r p' →
  r = emptyResponse ∨ Text r = storeFailedText →
  ∃ channel teamID channelID rest m,
    parameters = teamID :: channelID :: rest
    ∧ API_GetChannel api (args_ChannelId args) = Some channel
    ∧ channelsLinked p = Some m
    ∧ m !! linkKey channel = None
    ∧ channelsLinked p' =
        Some (<[linkKey channel := linkFor channel teamID channelID]> m)
    ∧ kv p' = kvWrite api (kv p) "channelsLinked"
                (json_Marshal api (channelsLinked p'))
    ∧ match API_KVSetErr api "channelsLinked" with
      | Some _ => r = cmdError (args_ChannelId args) storeFailedText
      | None => r = emptyResponse
      end.
Proof.
  unfold storeFailedText, kvWrite, linkFor.
  intros Hrun Hr. revert Hrun. branches; intros; simplify_eq/=;
    try (destruct Hr as [Hr|Hr]; discriminate Hr).
  all: eexists _, _, _, _, _; split_and!; try reflexivity; try eassumption.
Qed.

(** An unlink command that got as far as writing the snapshot: it found
    the link, took it out of the registry and attempted the write. *)
Lemma unlink_reaches_store args p r p' :
  executeUnlinkCommand api client args p = Ok r p' →
  r = emptyResponse ∨ Text r = storeFailedText →
  ∃ channel link,
    API_GetChannel api (args_ChannelId args) = Some channel
    ∧ canLinkChannel api channel args = true
    ∧ Lookup p channel = Some link
    ∧ channelsLinked p' = map_delete (channelsLinked p) (linkKey channel)
    ∧ kv p' = kvWrite api (kv p) "channelsLinked"
                (json_Marshal api (channelsLinked p'))
    ∧ match API_KVSetErr api "channelsLinked" with
      | Some _ => r = cmdError (args_ChannelId args) storeFailedText
      | None => r = emptyResponse
      end.
Proof.
  unfold storeFailedText, kvWrite.
  intros Hrun Hr. revert Hrun. branches; intros; simplify_eq/=;
    try (destruct Hr as [Hr|Hr]; discriminate Hr).
  all: eexists _, _; split_and!; try reflexivity; try eassumption.
  all: try (apply negb_false_iff; assumption).
  all: match goal with
       | H : channelsLinked _ = Some _ |- _ => rewrite H; reflexivity
       end.
Qed.

(** An unlink command for a channel without a link answers that there
    is none and changes nothing. *)
Lemma unlink_without_link args channel p :
  API_GetChannel api (args_ChannelId args) = Some channel →
  canLinkChannel api channel args = true →
  Lookup p channel = None →
  executeUnlinkCommand api client args p =
    Ok (cmdError (args_ChannelId args) "Link doesn't exist.") p.
Proof.
  intros Hch Hcan Hnone. unfold executeUnlinkCommand, Lookup in *.
  rewrite Hch, Hcan. run. rewrite Hnone. reflexivity.
Qed.

End CommandFacts.

Section CommandProperties.

Context (api : API) (client : Client).


(** C6.  A link command that succeeds, followed by an unlink command
    for the same channel that succeeds: the channel has a link in
    between and none afterwards, and a further unlink command answers
    that the link does not exist and changes nothing. *)
Theorem link_then_unlink args parameters args' p p1 p2 :
  args_ChannelId args' = args_ChannelId args →
  executeLinkCommand api client args parameters p = Ok emptyResponse p1 →
  executeUnlinkCommand api client args' p1 = Ok emptyResponse p2 →
  ∃ channel,
    API_GetChannel api (args_ChannelId args) = Some channel
    ∧ is_Some (Lookup p1 channel)
    ∧ Lookup p2 channel = None
    ∧ executeUnlinkCommand api client args' p2 =
        Ok (cmdError (args_ChannelId args') "Link doesn't exist.") p2.
Proof.
  intros Hsame Hlink Hunlink.
  destruct (link_reaches_store api client _ _ _ _ _ Hlink (or_introl eq_refl))
    as (channel & teamID & channelID & rest & m & _ & Hch & _ & _ & Hm1 & _).
  destruct (unlink_reaches_store api client _ _ _ _ Hunlink (or_introl eq_refl))
    as (channel' & link & Hch' & Hcan & Hl1 & Hm2 & _).
  rewrite Hsame, Hch in Hch'. injection Hch' as <-.
  assert (Lookup p2 channel = None) as Hgone.
  { unfold Lookup, map_index. rewrite Hm2, Hm1. simpl. apply lookup_delete_eq. }
  exists channel. split_and!; eauto.
  apply (unlink_without_link api client args' channel p2);
    [rewrite Hsame|..]; assumption.
Qed.


End CommandProperties.

Section StartupProperties.

Context (api : API) (client : Client).

Ltac open_start :=
  unfold start, subscribeToChannel, connectTeamsAppClient,
    connectTeamsBotClient, clearSubscriptions, map_assign;
  run.

(** A refused subscription is returned as it is, whatever the index. *)
Lemma subscribeToChannel_refused link p err :
  SubscribeToChannel client (calls p) (MSTeamsTeam link) (MSTeamsChannel link)
    (getURL api +:+ "/") = Failure err →
  ∃ p', subscribeToChannel api client link p = Ok (Returned (Some err)) p'
        ∧ subscriptionsToLinks p' = subscriptionsToLinks p.
Proof.
  intros Hsub. open_start. rewrite Hsub. run. eauto.
Qed.

(** Entering a granted subscription in an index that was never created
    is a write to a nil map. *)
Lemma subscribeToChannel_nil_index link p subscriptionID :
  SubscribeToChannel client (calls p) (MSTeamsTeam link) (MSTeamsChannel link)
    (getURL api +:+ "/") = Success subscriptionID →
  subscriptionsToLinks p = None →
  subscribeToChannel api client link p = Panic.
Proof.
  intros Hsub Hnil. open_start. rewrite Hsub. run. rewrite Hnil. reflexivity.
Qed.

(** With the index in place a subscription attempt runs to its end or
    to the renewal loop, and the index stays in place. *)
Lemma subscribeToChannel_keeps_index link p idx :
  subscriptionsToLinks p = Some idx →
  ∃ r p' idx', subscribeToChannel api client link p = Ok r p'
               ∧ subscriptionsToLinks p' = Some idx'.
Proof.
  intros Hidx. open_start.
  destruct (SubscribeToChannel _ _ _ _ _) as [subscriptionID|err]; run.
  - rewrite Hidx. run.
    destruct (RefreshSubscriptionPeriodically _ _ _) as [|[e|]]; run; eauto.
  - eauto.
Qed.

Lemma subscribeAll_keeps_index links :
  ∀ p idx, subscriptionsToLinks p = Some idx →
  ∃ p' idx', subscribeAll api client links p = Ok tt p'
             ∧ subscriptionsToLinks p' = Some idx'.
Proof.
  induction links as [|link rest IH]; intros p idx Hidx.
  - exists p, idx. split; [reflexivity|assumption].
  - destruct (subscribeToChannel_keeps_index link p idx Hidx)
      as (r & p1 & idx1 & Hrun & Hidx1).
    destruct (IH p1 idx1 Hidx1) as (p2 & idx2 & Hrest & Hidx2).
    exists p2, idx2. split; [|assumption].
    simpl. unfold mbind, M_bind. rewrite Hrun. exact Hrest.
Qed.

(** [start] creates the index before it subscribes, so it always runs
    to its end: every subscription attempt it makes finds the index. *)
Lemma start_runs p : ∃ p', start api client p = Ok tt p'.
Proof.
  unfold start, connectTeamsAppClient, connectTeamsBotClient,
    clearSubscriptions. run.
  destruct (NewApp client (calls p)); run; [eauto|].
  destruct (NewBot client _); run; [eauto|].
  destruct (API_KVGetErr api "channelsLinked"); run; [eauto|].
  destruct (json_Unmarshal api _) as [decoded [e|]]; run; [eauto|].
  destruct (ClearSubscriptions client _); run.
  - edestruct (subscribeAll_keeps_index (snd <$> map_to_list decoded))
      as (p' & idx' & Hrun & _); [|rewrite Hrun; eauto]. reflexivity.
  - edestruct (subscribeAll_keeps_index (snd <$> map_to_list decoded))
      as (p' & idx' & Hrun & _); [|rewrite Hrun; eauto]. reflexivity.
Qed.

(** C9.  With the subscription index in place, as [start] leaves it
    before subscribing, [subscribeToChannel] enters the pair of the
    subscription ID and the link in the index when MS Teams grants the
    subscription, and returns the error with the index as it was when
    MS Teams refuses. *)
Theorem subscribeToChannel_index link p idx :
  subscriptionsToLinks p = Some idx →
  ∃ r p',
    subscribeToChannel api client link p = Ok r p'
    ∧ match SubscribeToChannel client (calls p) (MSTeamsTeam link)
              (MSTeamsChannel link) (getURL api +:+ "/") with
      | Failure err =>
          r = Returned (Some err) ∧ subscriptionsToLinks p' = Some idx
      | Success subscriptionID =>
          subscriptionsToLinks p' = Some (<[subscriptionID := link]> idx)
      end.
Proof.
  intros Hidx. open_start.
  destruct (SubscribeToChannel _ _ _ _ _) as [subscriptionID|err]; run.
  - rewrite Hidx. run.
    destruct (RefreshSubscriptionPeriodically _ _ _) as [|[e|]]; run; eauto.
  - eauto.
Qed.

(** C8.  When the stored snapshot does not decode, [start] returns
    without touching [channelsLinked] or the subscription index, without
    writing to the store or starting a renewal, and without any
    subscription call on MS Teams; the decoding failure is what it logs
    once the clients are connected and the snapshot is read. *)
Theorem start_refuses_corrupt_snapshot p decoded err :
  json_Unmarshal api (default "" (kv p !! "channelsLinked"))
    = (decoded, Some err) →
  ∃ p',
    start api client p = Ok tt p'
    ∧ channelsLinked p' = channelsLinked p
    ∧ subscriptionsToLinks p' = subscriptionsToLinks p
    ∧ kv p' = kv p
    ∧ renewals p' = renewals p
    ∧ (∃ new, calls p' = (calls p ++ new)%list
              ∧ Forall (λ c, isSubscriptionCall c = false) new)
    ∧ (NewApp client (calls p) = None →
       NewBot client (calls p ++ [CallNewApp]) = None →
       API_KVGetErr api "channelsLinked" = None →
       calls p' = (calls p ++ [CallNewApp; CallNewBot])%list
       ∧ logs p' =
           (logs p ++ [LogError "Error getting the channels linked"])%list).
Proof.
  intros Hbad. open_start.
  destruct (NewApp client (calls p)) as [e1|] eqn:H1; run.
  { eexists. split_and!; try reflexivity; [|discriminate].
    exists [CallNewApp]. split; [reflexivity|]. repeat constructor. }
  destruct (NewBot client (calls p ++ [CallNewApp])) as [e2|] eqn:H2; run.
  { eexists. split_and!; try reflexivity; [|discriminate].
    exists [CallNewApp; CallNewBot]. rewrite <- app_assoc.
    split; [reflexivity|]. repeat constructor. }
  destruct (API_KVGetErr api "channelsLinked") as [e3|] eqn:H3; run.
  { eexists. split_and!; try reflexivity; [|discriminate].
    exists [CallNewApp; CallNewBot]. rewrite <- app_assoc.
    split; [reflexivity|]. repeat constructor. }
  rewrite Hbad. run.
  eexists. split_and!; try reflexivity.
  - exists [CallNewApp; CallNewBot]. rewrite <- app_assoc.
    split; [reflexivity|]. repeat constructor.
  - intros _ _ _. rewrite <- app_assoc. split; reflexivity.
Qed.

End StartupProperties.

(** * The properties on the small installation *)

(** C1: after [a ↦ b] and [a ↦ c] with [c ≠ b], the parent resolved for
    [a] is [c], not the first-written [b]. *)
Lemma first_writer_does_not_win :
  "c" ≠ "b"
  ∧ result_of
      ((RecordMapping (demoAPI None) "a" "b";;
        RecordMapping (demoAPI None) "a" "c";;
        ResolveRemoteParent (demoAPI None) "a") demoPlugin) = Some "c"
  ∧ result_of
      ((RecordMapping (demoAPI None) "a" "b";;
        RecordMapping (demoAPI None) "a" "c";;
        ResolveRemoteParent (demoAPI None) "a") demoPlugin) ≠ Some "b".
Proof.
  split; [discriminate|]. split; [vm_compute; reflexivity|].
  vm_compute. discriminate.
Qed.

(** The same through [Send]: the post [post1] forwarded twice is on
    record under the second message ID. *)
Example twice_sent_post_maps_to_second_id :
  (state_of
     ((Send (demoAPI None) (demoClient true) demoLink (Some demoUser) demoPost;;
       Send (demoAPI None) (demoClient true) demoLink (Some demoUser) demoPost)
        demoPlugin)
   ≫= λ p, kv p !! "mattermost_teams_post1") = Some "remote2".
Proof. vm_compute. reflexivity. Qed.

Lemma later_mapping_replaces_earlier_witness :
  ∃ p', (RecordMapping (demoAPI None) "a" "b";;
         RecordMapping (demoAPI None) "a" "c";;
         ResolveRemoteParent (demoAPI None) "a") demoPlugin = Ok "c" p'.
Proof.
  apply (later_mapping_replaces_earlier (demoAPI None) "a" "b" "c" demoPlugin);
    reflexivity.
Defined.



Lemma Send_failure_writes_no_mapping_witness :
  ∃ p', Send (demoAPI None) downClient demoLink (Some demoUser) demoPost
          demoLinked = Ok ("", Some "remote unavailable") p'
        ∧ kv p' = kv demoLinked
        ∧ calls p' =
            (calls demoLinked ++
               [CallSendMessage "rT" "rC" "" "U@mattermost: hello"])%list.
Proof.
  apply (Send_failure_writes_no_mapping (demoAPI None) downClient demoLink
           demoUser demoPost demoLinked "remote unavailable").
  reflexivity.
Defined.

Lemma marked_post_is_dropped_witness :
  MessageHasBeenPosted (demoAPI None) (demoClient true) demoEchoPost demoLinked
    = Ok tt demoLinked.
Proof.
  apply (marked_post_is_dropped (demoAPI None) (demoClient true) demoEchoPost
           demoLinked {[ "matterbridge_botuser" := PropBool true ]} true).
  - reflexivity.
  - vm_compute. reflexivity.
Defined.

(** A string under the bridge's key is not the marker: the post goes
    out. *)
Example string_under_key_is_forwarded :
  (calls <$> state_of
     (MessageHasBeenPosted (demoAPI None) (demoClient true)
        (mkPost "post3" "C1" "uid" "" "hello"
           (Some {[ "matterbridge_botuser" := PropString "true" ]}))
        demoLinked))
  = Some (calls demoLinked ++
            [CallSendMessage "rT" "rC" "" "U@mattermost: hello"])%list.
Proof. vm_compute. reflexivity. Qed.

(** C5: in the scenario the one [SendMessage] call carries the text
    [U@mattermost: hello], not [U: hello]. *)
Lemma hello_is_sent_with_mattermost_suffix :
  (List.filter isSendMessage ∘ calls <$> state_of
     ((executeLinkCommand (demoAPI None) (demoClient true) demoArgs
         ["rT"; "rC"];;
       MessageHasBeenPosted (demoAPI None) (demoClient true) demoPost)
        demoPlugin))
  = Some [CallSendMessage "rT" "rC" "" "U@mattermost: hello"]
  ∧ [CallSendMessage "rT" "rC" "" "U@mattermost: hello"]
    ≠ [CallSendMessage "rT" "rC" "" "U: hello"].
Proof. split; [vm_compute; reflexivity|discriminate]. Qed.

Lemma linked_post_is_sent_once_witness :
  ∃ p', MessageHasBeenPosted (demoAPI None) (demoClient true) demoPost
          demoLinked = Ok tt p'
        ∧ calls p' =
            (calls demoLinked ++
               [CallSendMessage "rT" "rC" "" "U@mattermost: hello"])%list
        ∧ kv p' !! "mattermost_teams_post1" = Some "remote1"
        ∧ kv p' !! "teams_mattermost_remote1" = Some "post1".
Proof.
  apply (linked_post_is_sent_once (demoAPI None) (demoClient true) demoPost
           demoLinked demoChannel demoLink demoUser "remote1");
    try reflexivity; discriminate.
Defined.

Lemma Send_mapping_needs_both_ids_witness :
  ∃ p', Send (demoAPI None) (demoClient true) demoLink (Some demoUser) demoPost
          demoLinked = Ok ("remote1", None) p'
        ∧ ("post1" = "" ∨ "remote1" = "" → kv p' = kv demoLinked)
        ∧ ("post1" ≠ "" ∧ "remote1" ≠ "" →
           kv p' = kvWrite (demoAPI None)
                     (kvWrite (demoAPI None) (kv demoLinked)
                        "mattermost_teams_post1" "remote1")
                     "teams_mattermost_remote1" "post1").
Proof.
  apply (Send_mapping_needs_both_ids (demoAPI None) (demoClient true) demoLink
           demoUser demoPost demoLinked "remote1").
  reflexivity.
Defined.

(** A post without an ID is sent and leaves the store alone. *)
Example post_without_id_is_not_recorded :
  let r := Send (demoAPI None) (demoClient true) demoLink (Some demoUser)
             (mkPost "" "C1" "uid" "" "hello" None) demoLinked in
  result_of r = Some ("remote1", None)
  ∧ (kv <$> state_of r) = Some (kv demoLinked).
Proof. split; vm_compute; reflexivity. Qed.

Lemma link_then_unlink_witness :
  ∃ channel,
    API_GetChannel (demoAPI None) "C1" = Some channel
    ∧ is_Some (Lookup demoLinked channel)
    ∧ Lookup demoUnlinked channel = None
    ∧ executeUnlinkCommand (demoAPI None) (demoClient true) demoArgs
        demoUnlinked = Ok (cmdError "C1" "Link doesn't exist.") demoUnlinked.
Proof.
  apply (link_then_unlink (demoAPI None) (demoClient true) demoArgs
           ["rT"; "rC"] demoArgs demoPlugin demoLinked demoUnlinked).
  - reflexivity.
  - vm_compute. reflexivity.
  - vm_compute. reflexivity.
Defined.



Lemma start_refuses_corrupt_snapshot_witness :
  ∃ p',
    start (demoAPI None) (demoClient true) demoPlugin = Ok tt p'
    ∧ channelsLinked p' = channelsLinked demoPlugin
    ∧ subscriptionsToLinks p' = subscriptionsToLinks demoPlugin
    ∧ kv p' = kv demoPlugin
    ∧ renewals p' = renewals demoPlugin
    ∧ (∃ new, calls p' = (calls demoPlugin ++ new)%list
              ∧ Forall (λ c, isSubscriptionCall c = false) new)
    ∧ (NewApp (demoClient true) (calls demoPlugin) = None →
       NewBot (demoClient true) (calls demoPlugin ++ [CallNewApp]) = None →
       API_KVGetErr (demoAPI None) "channelsLinked" = None →
       calls p' = (calls demoPlugin ++ [CallNewApp; CallNewBot])%list
       ∧ logs p' =
           (logs demoPlugin ++
              [LogError "Error getting the channels linked"])%list).
Proof.
  apply (start_refuses_corrupt_snapshot (demoAPI None) (demoClient true)
           demoPlugin ∅ "unexpected end of JSON input").
  reflexivity.
Defined.

Lemma subscribeToChannel_index_witness :
  (∃ r p',
     subscribeToChannel (demoAPI None) (demoClient true) demoLink demoPlugin
       = Ok r p'
     ∧ subscriptionsToLinks p' = Some (<["sub1" := demoLink]> ∅))
  ∧ (∃ r p',
       subscribeToChannel (demoAPI None) downClient demoLink demoPlugin
         = Ok r p'
       ∧ r = Returned (Some "remote unavailable")
       ∧ subscriptionsToLinks p' = Some ∅).
Proof.
  split.
  - destruct (subscribeToChannel_index (demoAPI None) (demoClient true)
                demoLink demoPlugin ∅ eq_refl) as (r & p' & Hrun & Hidx).
    exists r, p'. split; [exact Hrun|exact Hidx].
  - destruct (subscribeToChannel_index (demoAPI None) downClient
                demoLink demoPlugin ∅ eq_refl) as (r & p' & Hrun & Hr & Hidx).
    exists r, p'. split; [exact Hrun|]. split; [exact Hr|exact Hidx].
Defined.

(** * Further properties of the code *)

(** ** The plugin URL *)

Lemma string_length_app (s t : string) :
  String.length (s +:+ t) = String.length s + String.length t.
Proof. induction s as [|c s IH]; simpl; [reflexivity|]. f_equal. exact IH. Qed.

Lemma string_app_assoc (s t u : string) : (s +:+ t) +:+ u = s +:+ (t +:+ u).
Proof.
  induction s as [|c s IH]; [reflexivity|].
  change (String c ((s +:+ t) +:+ u) = String c (s +:+ (t +:+ u))).
  f_equal. exact IH.
Qed.

Lemma substring_whole (s : string) : String.substring 0 (String.length s) s = s.
Proof. induction s as [|c s IH]; simpl; [reflexivity|]. f_equal. exact IH. Qed.

Lemma substring_skip (pre suf : string) :
  String.substring (String.length pre) (String.length suf) (pre +:+ suf) = suf.
Proof.
  induction pre as [|c pre IH]; [apply substring_whole|].
  change (String.substring (String.length pre) (String.length suf)
            (pre +:+ suf) = suf).
  exact IH.
Qed.

(** A string is its first [n] characters followed by the rest. *)
Lemma substring_split (s : string) :
  ∀ n : nat, (n ≤ String.length s)%nat →
  s = String.substring 0 n s
        +:+ String.substring n (String.length s - n) s.
Proof.
  induction s as [|c s IH]; intros n Hn.
  - destruct n; reflexivity.
  - destruct n as [|n].
    + simpl. rewrite substring_whole. reflexivity.
    + simpl in Hn.
      change (String c s =
              String c (String.substring 0 n s
                          +:+ String.substring n (String.length s - n) s)).
      f_equal. apply IH. lia.
Qed.

(** [HasSuffix] holds exactly of the strings that end with the suffix. *)
Lemma HasSuffix_app (pre suf : string) : HasSuffix (pre +:+ suf) suf = true.
Proof.
  unfold HasSuffix. rewrite string_length_app.
  replace (String.length pre + String.length suf - String.length suf)
    with (String.length pre) by lia.
  rewrite substring_skip, String.eqb_refl, andb_true_r.
  apply Nat.leb_le. lia.
Qed.

Lemma HasSuffix_split (s suf : string) :
  HasSuffix s suf = true → ∃ pre, s = pre +:+ suf.
Proof.
  unfold HasSuffix. intros H. apply andb_true_iff in H as [Hlen Heq].
  apply Nat.leb_le in Hlen. apply String.eqb_eq in Heq.
  exists (String.substring 0 (String.length s - String.length suf) s).
  rewrite (substring_split s (String.length s - String.length suf)) at 1
    by lia.
  f_equal.
  replace (String.length s - (String.length s - String.length suf))
    with (String.length suf) by lia.
  exact Heq.
Qed.

(** X1.  The plugin URL is the site URL, less one trailing slash if it
    has one, followed by [/plugins/] and the plugin ID. *)
Theorem getURL_one_slash (api : API) :
  ∃ base,
    getURL api = base +:+ "/plugins/" +:+ pluginID
    ∧ (if HasSuffix (API_SiteURL api) "/"
       then API_SiteURL api = base +:+ "/"
       else API_SiteURL api = base).
Proof.
  unfold getURL. destruct (HasSuffix (API_SiteURL api) "/") eqn:Hs.
  - destruct (HasSuffix_split _ _ Hs) as [base Hbase]. exists base.
    split; [|exact Hbase]. rewrite Hbase, string_app_assoc. reflexivity.
  - exists (API_SiteURL api). split; reflexivity.
Qed.

(** X2.  Writing the site URL with or without a trailing slash gives the
    same plugin URL. *)
Theorem getURL_trailing_slash (api api' : API) :
  HasSuffix (API_SiteURL api) "/" = false →
  API_SiteURL api' = API_SiteURL api +:+ "/" →
  getURL api' = getURL api.
Proof.
  intros Hno Hslash. unfold getURL.
  rewrite Hslash, HasSuffix_app, Hno, string_app_assoc. reflexivity.
Qed.

(** ** The post handler and [Send] *)

Section HandlerFacts.

Context (api : API) (client : Client).

(** With a user at hand [Send] runs to its end: it makes its one call
    on MS Teams and touches nothing of the plugin but the store and the
    log. *)
Lemma Send_runs link u post p :
  ∃ r p',
    Send api client link (Some u) post p = Ok r p'
    ∧ calls p' =
        (calls p ++
           [CallSendMessage (MSTeamsTeam link) (MSTeamsChannel link)
              (threadParent api p post) (messageText u post)])%list
    ∧ channelsLinked p' = channelsLinked p
    ∧ subscriptionsToLinks p' = subscriptionsToLinks p
    ∧ renewals p' = renewals p
    ∧ ephemeralPosts p' = ephemeralPosts p
    ∧ userID p' = userID p.
Proof.
  unfold Send, threadParent, messageText, storedRemoteID. run.
  repeat (case_match; run; simplify_eq/=); eauto 10.
Qed.

(** A successful [Send] of a post with an ID leaves the returned message
    ID readable under the post's key, when the store takes that write. *)
Lemma Send_records_remote_id link u post p remotePostID p' :
  Send api client link (Some u) post p = Ok (remotePostID, None) p' →
  post_Id post ≠ "" →
  remotePostID ≠ "" →
  API_KVSetErr api ("mattermost_teams_" +:+ post_Id post) = None →
  kv p' !! ("mattermost_teams_" +:+ post_Id post) = Some remotePostID.
Proof.
  intros Hrun Hid Hrid Hset.
  destruct (Send_run api client link u post p) as (p1 & K & _ & _ & _ & E).
  rewrite E in Hrun. clear E.
  destruct (SendMessage _ _ _ _ _ _) as [newMessageId|err]; [|discriminate].
  destruct (decide _) as [Hboth|Hnot].
  - destruct (RecordMapping_run api (post_Id post) newMessageId p1)
      as (p2 & E2 & K2 & _).
    rewrite E2 in Hrun. injection Hrun as <- <-.
    rewrite K2. unfold kvWrite at 1.
    assert (kvWrite api (kv p1) ("mattermost_teams_" +:+ post_Id post)
              newMessageId !! ("mattermost_teams_" +:+ post_Id post)
            = Some newMessageId) as Hfirst.
    { unfold kvWrite. rewrite Hset. apply lookup_insert_eq. }
    destruct (API_KVSetErr api ("teams_mattermost_" +:+ newMessageId));
      [exact Hfirst|].
    rewrite lookup_insert_ne by (apply not_eq_sym, mapping_keys_apart).
    exact Hfirst.
  - injection Hrun as <- <-. exfalso. apply Hnot. split; assumption.
Qed.

End HandlerFacts.

Section HandlerProperties.

Context (api : API) (client : Client).



(** X5.  The post handler never changes the link registry, the
    subscription index, the renewal tasks, the ephemeral posts or the
    bot's user ID. *)
Theorem handler_keeps_registry post p p' :
  MessageHasBeenPosted api client post p = Ok tt p' →
  channelsLinked p' = channelsLinked p
  ∧ subscriptionsToLinks p' = subscriptionsToLinks p
  ∧ renewals p' = renewals p
  ∧ ephemeralPosts p' = ephemeralPosts p
  ∧ userID p' = userID p.
Proof.
  unfold MessageHasBeenPosted. run.
  destruct (carriesMarker p post); run; [intros [= <-]; done|].
  destruct (API_GetChannel api (post_ChannelId post)) as [channel|]; run;
    [|discriminate].
  destruct (map_index _ _) as [link|]; run; [|intros [= <-]; done].
  destruct (API_GetUser api (post_UserId post)) as [u|].
  - destruct (Send_runs api client link u post p)
      as (r & p2 & E & _ & H1 & H2 & H3 & H4 & H5).
    rewrite E. intros [= <-]. done.
  - unfold Send. run. discriminate.
Qed.

(** X6.  The properties of a post count only through the marker test: a
    post that fails the test, for instance with a string under the
    bridge's key, is handled like the same post without properties. *)
Theorem props_count_only_through_marker post p :
  carriesMarker p post = false →
  MessageHasBeenPosted api client post p
  = MessageHasBeenPosted api client (withoutProps post) p.
Proof.
  intros Hmark. unfold MessageHasBeenPosted, withoutProps. run.
  rewrite Hmark. reflexivity.
Qed.

(** X7.  Once [Send] has forwarded a post and returned its MS Teams ID,
    a reply to that post is sent with that ID as its parent, provided
    the store takes the write and the read under the post's key. *)
Theorem reply_is_sent_under_recorded_parent
    link u post p remotePostID p1 link' u' reply :
  Send api client link (Some u) post p = Ok (remotePostID, None) p1 →
  post_Id post ≠ "" →
  remotePostID ≠ "" →
  API_KVSetErr api ("mattermost_teams_" +:+ post_Id post) = None →
  API_KVGetErr api ("mattermost_teams_" +:+ post_Id post) = None →
  post_RootId reply = post_Id post →
  ∃ r p2,
    Send api client link' (Some u') reply p1 = Ok r p2
    ∧ calls p2 =
        (calls p1 ++
           [CallSendMessage (MSTeamsTeam link') (MSTeamsChannel link')
              remotePostID (messageText u' reply)])%list.
Proof.
  intros Hrun Hid Hrid Hset Hget Hroot.
  pose proof (Send_records_remote_id api client _ _ _ _ _ _ Hrun Hid Hrid Hset)
    as Hkv.
  destruct (Send_runs api client link' u' reply p1) as (r & p2 & E & C & _).
  exists r, p2. split; [exact E|]. rewrite C.
  unfold threadParent, storedRemoteID. rewrite Hroot, Hget, Hkv.
  destruct (decide _) as [_|Hn]; [reflexivity|].
  exfalso. apply Hn. exact Hid.
Qed.

(** X8.  A reply whose root has no MS Teams ID on record is sent as a
    top-level message: the parent passed to [SendMessage] is empty. *)
Theorem reply_to_unrecorded_root_is_top_level link u reply p :
  kv p !! ("mattermost_teams_" +:+ post_RootId reply) = None →
  ∃ r p',
    Send api client link (Some u) reply p = Ok r p'
    ∧ calls p' =
        (calls p ++
           [CallSendMessage (MSTeamsTeam link) (MSTeamsChannel link) ""
              (messageText u reply)])%list.
Proof.
  intros Hnone.
  destruct (Send_runs api client link u reply p) as (r & p' & E & C & _).
  exists r, p'. split; [exact E|]. rewrite C.
  unfold threadParent, storedRemoteID. rewrite Hnone.
  destruct (decide _); [destruct (API_KVGetErr api _)|]; reflexivity.
Qed.

End HandlerProperties.

(** ** The link and unlink commands *)

(** Opens a command down to its branches and splits on every answer. *)
Ltac command_branches :=
  unfold executeLinkCommand, executeUnlinkCommand, subscribeToChannelOnce,
    unsubscribeFromChannel, Lookup, map_index, map_assign, map_delete;
  run;
  repeat (case_match; run; simplify_eq/=; try discriminate).

Section CommandEffects.

Context (api : API) (client : Client).

(** All a link command can do to the registry is to put its link under
    the free key of its channel. *)
Lemma link_changes_registry_at_free_key args parameters p r p' :
  executeLinkCommand api client args parameters p = Ok r p' →
  channelsLinked p' = channelsLinked p
  ∨ ∃ channel teamID channelID m,
      API_GetChannel api (args_ChannelId args) = Some channel
      ∧ channelsLinked p = Some m
      ∧ m !! linkKey channel = None
      ∧ channelsLinked p' =
          Some (<[linkKey channel := linkFor channel teamID channelID]> m).
Proof.
  unfold linkFor. command_branches; intros; simplify_eq/=; auto.
  all: right; eexists _, _, _, _; split_and!; try reflexivity; eassumption.
Qed.

(** All an unlink command can do to the registry is to take out the key
    of its channel. *)
Lemma unlink_changes_registry_at_key args p r p' :
  executeUnlinkCommand api client args p = Ok r p' →
  channelsLinked p' = channelsLinked p
  ∨ ∃ channel,
      API_GetChannel api (args_ChannelId args) = Some channel
      ∧ channelsLinked p' = map_delete (channelsLinked p) (linkKey channel).
Proof.
  command_branches; intros; simplify_eq/=; auto.
  all: right; eexists; split; reflexivity.
Qed.

(** The unlink command never panics. *)
Lemma unlink_runs args p :
  ∃ r p', executeUnlinkCommand api client args p = Ok r p'.
Proof. command_branches; eauto. Qed.

End CommandEffects.

Section CommandExtraProperties.

Context (api : API) (client : Client).

(** X9.  A link or unlink command that does not answer with success
    leaves the key-value store as it was. *)
Theorem failed_command_leaves_store :
  (∀ args parameters p r p',
     executeLinkCommand api client args parameters p = Ok r p' →
     r ≠ emptyResponse → kv p' = kv p)
  ∧ (∀ args p r p',
       executeUnlinkCommand api client args p = Ok r p' →
       r ≠ emptyResponse → kv p' = kv p).
Proof.
  split.
  - intros args parameters p r p'. command_branches; intros; simplify_eq/=;
      done.
  - intros args p r p'. command_branches; intros; simplify_eq/=; done.
Qed.

(** X10.  In a direct or group channel neither command does anything,
    whatever permissions the user holds: the link command answers with
    an error and the unlink command with its admin error, and the state
    is untouched. *)
Theorem direct_and_group_channels_stay_unlinked args channel p :
  API_GetChannel api (args_ChannelId args) = Some channel →
  channel_Type channel = ChannelTypeDirect
  ∨ channel_Type channel = ChannelTypeGroup →
  (∀ parameters,
     ∃ r, executeLinkCommand api client args parameters p = Ok r p
          ∧ r ≠ emptyResponse)
  ∧ executeUnlinkCommand api client args p =
      Ok (cmdError (args_ChannelId args)
            "Unable to unlink the channel, you has to be a channel admin to unlink it.")
         p.
Proof.
  intros Hch Htype.
  assert (canLinkChannel api channel args = false) as Hcan.
  { unfold canLinkChannel. destruct Htype as [-> | ->]; reflexivity. }
  split.
  - intros parameters. unfold executeLinkCommand.
    destruct parameters as [|t [|c rest]]; run; [eauto..|].
    destruct (checkEnabledTeamByTeamId api _); run; [|eauto].
    rewrite Hch, Hcan. run. eauto.
  - unfold executeUnlinkCommand. rewrite Hch, Hcan. reflexivity.
Qed.

(** X11.  When MS Teams refuses the subscription, the link command
    answers with an error, nothing is stored and no renewal is started,
    but the new link is in the registry: a repeated link command for the
    channel is turned down as already linked. *)
Theorem refused_subscription_leaves_link_unsaved
    args teamID channelID rest channel m p err :
  checkEnabledTeamByTeamId api (args_TeamId args) = true →
  API_GetChannel api (args_ChannelId args) = Some channel →
  canLinkChannel api channel args = true →
  channelsLinked p = Some m →
  m !! linkKey channel = None →
  GetChannel client (calls p) teamID channelID = Success tt →
  SubscribeToChannel client (calls p ++ [CallGetChannel teamID channelID])
    teamID channelID (getURL api +:+ "/") = Failure err →
  ∃ p',
    executeLinkCommand api client args (teamID :: channelID :: rest) p =
      Ok (cmdError (args_ChannelId args)
            "Unable to subscribe to channel, probably it is already link to another channel.")
         p'
    ∧ channelsLinked p' =
        Some (<[linkKey channel := linkFor channel teamID channelID]> m)
    ∧ kv p' = kv p
    ∧ renewals p' = renewals p
    ∧ subscriptionsToLinks p' = subscriptionsToLinks p
    ∧ executeLinkCommand api client args (teamID :: channelID :: rest) p' =
        Ok (cmdError (args_ChannelId args) alreadyLinkedText) p'.
Proof.
  intros Hen Hch Hcan Hm Hfree Hget Hsub.
  unfold executeLinkCommand, subscribeToChannelOnce, linkFor, alreadyLinkedText.
  rewrite Hen, Hch, Hcan. run.
  unfold map_index, map_assign. rewrite Hm, Hfree, Hget. run.
  rewrite Hsub. run.
  eexists. split_and!; try reflexivity.
  unfold set_calls, set_channelsLinked. simpl.
  rewrite lookup_insert_eq. reflexivity.
Qed.

(** On a plugin whose link map was never created, a link command that
    passes its checks and finds the MS Teams channel panics on the
    assignment into the map. *)
Lemma link_on_unloaded_registry_panics
    args teamID channelID rest channel p :
  channelsLinked p = None →
  checkEnabledTeamByTeamId api (args_TeamId args) = true →
  API_GetChannel api (args_ChannelId args) = Some channel →
  canLinkChannel api channel args = true →
  GetChannel client (calls p) teamID channelID = Success tt →
  executeLinkCommand api client args (teamID :: channelID :: rest) p = Panic.
Proof.
  intros Hnil Hen Hch Hcan Hget.
  unfold executeLinkCommand. rewrite Hen, Hch, Hcan. run.
  unfold map_index, map_assign. rewrite Hnil, Hget. reflexivity.
Qed.

(** X12.  A link command that succeeds has asked MS Teams for the
    channel and then for a subscription and nothing else, has entered
    the subscription with the new link in the index, started one
    renewal task for it and told the user with one ephemeral post. *)
Theorem successful_link_registers_subscription args parameters p p' :
  executeLinkCommand api client args parameters p = Ok emptyResponse p' →
  ∃ channel teamID channelID rest idx subscriptionID,
    parameters = teamID :: channelID :: rest
    ∧ API_GetChannel api (args_ChannelId args) = Some channel
    ∧ subscriptionsToLinks p = Some idx
    ∧ calls p' =
        (calls p ++
           [CallGetChannel teamID channelID;
            CallSubscribeToChannel teamID channelID (getURL api +:+ "/")])%list
    ∧ subscriptionsToLinks p' =
        Some (<[subscriptionID := linkFor channel teamID channelID]> idx)
    ∧ renewals p' = (renewals p ++ [subscriptionID])%list
    ∧ ephemeralPosts p' =
        (ephemeralPosts p ++
           [(args_UserId args, args_ChannelId args,
             "The MS Teams channel is now linked to this Mattermost channel")])%list.
Proof.
  unfold linkFor. command_branches. intros; simplify_eq/=.
  eexists _, _, _, _, _, _. split_and!; try reflexivity; try eassumption.
  rewrite <- app_assoc. reflexivity.
Qed.


(** X14.  The commands touch the registry under the key of their own
    channel only: the link found under any other key is the same before
    and after a link or unlink command. *)
Theorem commands_keep_other_links args (key : string) :
  (∀ channel, API_GetChannel api (args_ChannelId args) = Some channel →
              key ≠ linkKey channel) →
  (∀ parameters p r p',
     executeLinkCommand api client args parameters p = Ok r p' →
     map_index (channelsLinked p') key = map_index (channelsLinked p) key)
  ∧ (∀ p r p',
       executeUnlinkCommand api client args p = Ok r p' →
       map_index (channelsLinked p') key = map_index (channelsLinked p) key).
Proof.
  intros Hother. split.
  - intros parameters p r p' Hrun.
    destruct (link_changes_registry_at_free_key api client _ _ _ _ _ Hrun)
      as [->|(channel & t & c & m & Hch & Hm & _ & ->)]; [reflexivity|].
    rewrite Hm. simpl. apply lookup_insert_ne, not_eq_sym, Hother, Hch.
  - intros p r p' Hrun.
    destruct (unlink_changes_registry_at_key api client _ _ _ _ Hrun)
      as [->|(channel & Hch & ->)]; [reflexivity|].
    unfold map_index, map_delete. destruct (channelsLinked p); [|reflexivity].
    apply lookup_delete_ne, not_eq_sym, Hother, Hch.
Qed.

(** X15.  When the unsubscription fails, the unlink command answers
    with its error and both the registry and the store stay as they
    were: the channel is still linked. *)
Theorem refused_unsubscribe_keeps_link args p r p' :
  executeUnlinkCommand api client args p = Ok r p' →
  Text r = "Unable to store unsubscribe from channel, please try again." →
  channelsLinked p' = channelsLinked p
  ∧ kv p' = kv p
  ∧ ∃ channel link,
      API_GetChannel api (args_ChannelId args) = Some channel
      ∧ Lookup p' channel = Some link.
Proof.
  intros Hrun Htext.
  assert (∃ channel link,
            API_GetChannel api (args_ChannelId args) = Some channel
            ∧ map_index (channelsLinked p) (linkKey channel) = Some link
            ∧ p' = set_calls (calls p ++ [CallUnsubscribe link]) p)
    as (channel & link & Hch & Hlink & ->).
  { revert Hrun Htext. command_branches; intros; simplify_eq/=.
    eexists _, _. split_and!; try reflexivity. eassumption. }
  split_and!; try reflexivity.
  exists channel, link. split; assumption.
Qed.

(** X16.  After a link or unlink command that succeeds, the snapshot in
    the store is the encoding of the registry the command leaves in
    memory. *)
Theorem stored_snapshot_matches_registry :
  (∀ args parameters p p',
     executeLinkCommand api client args parameters p = Ok emptyResponse p' →
     kv p' !! "channelsLinked" = Some (json_Marshal api (channelsLinked p')))
  ∧ (∀ args p p',
       executeUnlinkCommand api client args p = Ok emptyResponse p' →
       kv p' !! "channelsLinked" = Some (json_Marshal api (channelsLinked p'))).
Proof.
  split.
  - intros args parameters p p' Hrun.
    destruct (link_reaches_store api client _ _ _ _ _ Hrun (or_introl eq_refl))
      as (_ & _ & _ & _ & _ & _ & _ & _ & _ & _ & Hkv & Hr).
    rewrite Hkv. unfold kvWrite.
    destruct (API_KVSetErr api "channelsLinked"); [discriminate Hr|].
    apply lookup_insert_eq.
  - intros args p p' Hrun.
    destruct (unlink_reaches_store api client _ _ _ _ Hrun (or_introl eq_refl))
      as (_ & _ & _ & _ & _ & _ & Hkv & Hr).
    rewrite Hkv. unfold kvWrite.
    destruct (API_KVSetErr api "channelsLinked"); [discriminate Hr|].
    apply lookup_insert_eq.
Qed.

End CommandExtraProperties.

(** ** Start-up and subscriptions *)

Section StartupEffects.

Context (api : API) (client : Client).

Ltac open_start :=
  unfold start, subscribeToChannel, connectTeamsAppClient,
    connectTeamsBotClient, clearSubscriptions, map_assign;
  run.

(** One subscription attempt with the index in place: one
    [SubscribeToChannel] call, possibly followed by the renewal loop,
    and no change outside the index and the log. *)
Lemma subscribeToChannel_effects link p idx :
  subscriptionsToLinks p = Some idx →
  ∃ r p' idx' new,
    subscribeToChannel api client link p = Ok r p'
    ∧ subscriptionsToLinks p' = Some idx'
    ∧ channelsLinked p' = channelsLinked p
    ∧ kv p' = kv p
    ∧ renewals p' = renewals p
    ∧ calls p' = (calls p ++ new)%list
    ∧ length (List.filter isSubscribeToChannel new) = 1
    ∧ Forall (λ c, c ≠ CallClearSubscriptions) new.
Proof.
  intros Hidx. open_start.
  destruct (SubscribeToChannel _ _ _ _ _) as [subscriptionID|err]; run.
  - rewrite Hidx. run.
    destruct (RefreshSubscriptionPeriodically _ _ _) as [|[e|]]; run;
      eexists _, _, _,
        [CallSubscribeToChannel _ _ _;
         CallRefreshSubscriptionPeriodically subscriptionID];
      rewrite <- app_assoc; split_and!; try reflexivity;
      repeat constructor; discriminate.
  - eexists _, _, _, [CallSubscribeToChannel _ _ _].
    split_and!; try reflexivity; try eassumption.
    repeat constructor; discriminate.
Qed.

Lemma subscribeAll_effects links :
  ∀ p idx, subscriptionsToLinks p = Some idx →
  ∃ p' idx' new,
    subscribeAll api client links p = Ok tt p'
    ∧ subscriptionsToLinks p' = Some idx'
    ∧ channelsLinked p' = channelsLinked p
    ∧ kv p' = kv p
    ∧ renewals p' = renewals p
    ∧ calls p' = (calls p ++ new)%list
    ∧ length (List.filter isSubscribeToChannel new) = length links
    ∧ Forall (λ c, c ≠ CallClearSubscriptions) new.
Proof.
  induction links as [|link rest IH]; intros p idx Hidx.
  - exists p, idx, []. rewrite app_nil_r. split_and!; try done.
  - destruct (subscribeToChannel_effects link p idx Hidx)
      as (r & p1 & idx1 & new1 & Hrun & Hidx1 & Hl1 & Hk1 & Hr1 & Hc1 & Hn1 & Hf1).
    destruct (IH p1 idx1 Hidx1)
      as (p2 & idx2 & new2 & Hrest & Hidx2 & Hl2 & Hk2 & Hr2 & Hc2 & Hn2 & Hf2).
    exists p2, idx2, (new1 ++ new2)%list. split_and!.
    + simpl. unfold mbind, M_bind. rewrite Hrun. exact Hrest.
    + exact Hidx2.
    + congruence.
    + congruence.
    + congruence.
    + rewrite Hc2, Hc1, app_assoc. reflexivity.
    + rewrite List.filter_app, length_app, Hn1, Hn2. reflexivity.
    + apply Forall_app. split; assumption.
Qed.

(** [start] with both clients connected and a snapshot that decodes. *)
Lemma start_loads p decoded :
  NewApp client (calls p) = None →
  NewBot client (calls p ++ [CallNewApp]) = None →
  API_KVGetErr api "channelsLinked" = None →
  json_Unmarshal api (default "" (kv p !! "channelsLinked"))
    = (decoded, None) →
  ∃ p' new,
    start api client p = Ok tt p'
    ∧ channelsLinked p' = Some decoded
    ∧ is_Some (subscriptionsToLinks p')
    ∧ kv p' = kv p
    ∧ renewals p' = renewals p
    ∧ calls p' =
        (calls p ++ [CallNewApp; CallNewBot; CallClearSubscriptions] ++ new)%list
    ∧ length (List.filter isSubscribeToChannel new) = size decoded
    ∧ Forall (λ c, c ≠ CallClearSubscriptions) new.
Proof.
  intros Happ Hbot Hget Hdec.
  unfold start, connectTeamsAppClient, connectTeamsBotClient,
    clearSubscriptions. run.
  rewrite Happ. run. rewrite Hbot. run. rewrite Hget. run.
  rewrite Hdec. run.
  destruct (ClearSubscriptions client _); run.
  all: edestruct (subscribeAll_effects (snd <$> map_to_list decoded))
         as (p' & idx' & new & Hrun & Hidx & Hl & Hk & Hr & Hc & Hn & Hf);
         [|rewrite Hrun]; [reflexivity|].
  all: simpl in Hl, Hk, Hr, Hc; exists p', new.
  all: split_and!; try assumption; try reflexivity; [eauto| |].
  all: try (rewrite Hc, <- !app_assoc; reflexivity).
  all: rewrite Hn, length_fmap; apply length_map_to_list.
Qed.

End StartupEffects.

Section StartupExtraProperties.

Context (api : API) (client : Client).



(** X19.  A renewal loop that ends with an error makes
    [subscribeToChannel] log it and return that error, while the
    subscription it entered in the index stays there. *)
Theorem failed_renewal_keeps_subscription_indexed
    link p idx subscriptionID err :
  subscriptionsToLinks p = Some idx →
  SubscribeToChannel client (calls p) (MSTeamsTeam link) (MSTeamsChannel link)
    (getURL api +:+ "/") = Success subscriptionID →
  RefreshSubscriptionPeriodically client
    (calls p ++
       [CallSubscribeToChannel (MSTeamsTeam link) (MSTeamsChannel link)
          (getURL api +:+ "/")])
    subscriptionID = Finished (Some err) →
  ∃ p',
    subscribeToChannel api client link p = Ok (Returned (Some err)) p'
    ∧ subscriptionsToLinks p' = Some (<[subscriptionID := link]> idx)
    ∧ logs p' = (logs p ++ [LogError "error updating subscription"])%list.
Proof.
  intros Hidx Hsub Hrefresh.
  unfold subscribeToChannel, map_assign. run.
  rewrite Hsub. run. rewrite Hidx. run. rewrite Hrefresh. run.
  eexists. split_and!; reflexivity.
Qed.

(** X20.  A link survives a restart: after a link command that
    succeeded, if the encoding of the registry decodes to the registry,
    a [start] that connects and reads the store installs the same
    registry, in which the channel has its link. *)
Theorem link_survives_restart args parameters p p1 m1 :
  executeLinkCommand api client args parameters p = Ok emptyResponse p1 →
  channelsLinked p1 = Some m1 →
  json_Unmarshal api (json_Marshal api (Some m1)) = (m1, None) →
  NewApp client (calls p1) = None →
  NewBot client (calls p1 ++ [CallNewApp]) = None →
  API_KVGetErr api "channelsLinked" = None →
  ∃ p2 channel,
    start api client p1 = Ok tt p2
    ∧ channelsLinked p2 = Some m1
    ∧ API_GetChannel api (args_ChannelId args) = Some channel
    ∧ is_Some (Lookup p2 channel).
Proof.
  intros Hlink Hm1 Hround Happ Hbot Hget.
  destruct (link_reaches_store api client _ _ _ _ _ Hlink (or_introl eq_refl))
    as (channel & teamID & channelID & rest & m & _ & Hch & _ & _ & Hm1'
        & Hkv & Hr).
  assert (kv p1 !! "channelsLinked" = Some (json_Marshal api (Some m1)))
    as Hstored.
  { rewrite Hkv, Hm1. unfold kvWrite.
    destruct (API_KVSetErr api "channelsLinked"); [discriminate Hr|].
    apply lookup_insert_eq. }
  destruct (start_loads api client p1 m1 Happ Hbot Hget) as (p2 & _ & Hrun & Hl & _).
  { rewrite Hstored. exact Hround. }
  exists p2, channel. split_and!; try assumption.
  unfold Lookup, map_index. rewrite Hl.
  rewrite Hm1' in Hm1. injection Hm1 as <-.
  rewrite lookup_insert_eq. eauto.
Qed.

End StartupExtraProperties.

(** ** The show command and the dispatch *)

Section DispatchProperties.

Context (api : API) (client : Client).
Context (GetTeam : list Call → string → Result TeamInfo).
Context (channelDetails : list Call → string → string → ChannelInfo).
Context (Fields : string → list string).

(** A link command can only panic on a map that was never created. *)
Lemma link_panics_without_maps args parameters p :
  executeLinkCommand api client args parameters p = Panic →
  channelsLinked p = None ∨ subscriptionsToLinks p = None.
Proof. command_branches; auto. Qed.

(** The show command never panics. *)
Lemma show_runs args p :
  ∃ r p',
    executeShowCommand api client GetTeam channelDetails args p = Ok r p'.
Proof.
  unfold executeShowCommand.
  destruct (API_GetChannel api (args_ChannelId args)) as [channel|]; run;
    [|eauto].
  destruct (map_index (channelsLinked p) (linkKey channel)) as [link|]; run;
    [|eauto].
  destruct (GetTeam (calls p) (MSTeamsTeam link)) as [team|]; run; [|eauto].
  destruct (GetChannel client _ _ _); run; eauto.
Qed.

(** X21.  The show command never panics and only reads: the registry,
    the subscription index, the store and the renewal tasks are as
    before; in a channel without a link it answers that there is none
    and leaves the whole state as it was, without a call on MS Teams. *)
Theorem show_only_reads args p :
  ∃ r p',
    executeShowCommand api client GetTeam channelDetails args p = Ok r p'
    ∧ channelsLinked p' = channelsLinked p
    ∧ subscriptionsToLinks p' = subscriptionsToLinks p
    ∧ kv p' = kv p
    ∧ renewals p' = renewals p
    ∧ (∀ channel,
         API_GetChannel api (args_ChannelId args) = Some channel →
         Lookup p channel = None →
         r = cmdError (args_ChannelId args) "Link doesn't exists." ∧ p' = p).
Proof.
  unfold executeShowCommand, Lookup.
  destruct (API_GetChannel api (args_ChannelId args)) as [channel|]; run.
  2: { eexists _, _. split_and!; try reflexivity. discriminate. }
  destruct (map_index (channelsLinked p) (linkKey channel)) as [link|] eqn:Hl;
    run.
  2: { eexists _, _. split_and!; try reflexivity.
       intros c [= <-] _. done. }
  destruct (GetTeam (calls p) (MSTeamsTeam link)) as [team|]; run.
  2: { eexists _, _. split_and!; try reflexivity.
       intros c [= <-] H. congruence. }
  destruct (GetChannel client _ _ _); run;
    eexists _, _; (split_and!; try reflexivity);
    intros c [= <-] H; congruence.
Qed.

(** X22.  On a plugin whose maps were created, the command entry point
    panics for one input only: a command line without a word. *)
Theorem ExecuteCommand_panics_only_on_empty_line args argsCommand p :
  is_Some (channelsLinked p) →
  is_Some (subscriptionsToLinks p) →
  ExecuteCommand api client GetTeam channelDetails Fields args argsCommand p
    = Panic
  ↔ Fields argsCommand = [].
Proof.
  intros [m Hm] [idx Hidx]. unfold ExecuteCommand.
  destruct (Fields argsCommand) as [|command afterCommand].
  { split; reflexivity. }
  split; [|discriminate]. intros Hpanic. exfalso. revert Hpanic.
  destruct (decide (command ≠ "/" +:+ msteamsCommand)); [discriminate|].
  destruct (decide _).
  { intros H. apply link_panics_without_maps in H as [H|H]; congruence. }
  destruct (decide _).
  { destruct (unlink_runs api client args p) as (r & p' & ->). discriminate. }
  destruct (decide _); [|discriminate].
  destruct (show_runs args p) as (r & p' & ->). discriminate.
Qed.

(** X23.  A command line whose first word is not [/msteamssync] gets an
    empty response, and one with that word but an action other than
    [link], [unlink] and [show], or none, gets the list of valid
    options; in both cases the state is untouched. *)
Theorem foreign_or_unknown_command_changes_nothing
    args argsCommand command afterCommand p :
  Fields argsCommand = command :: afterCommand →
  command ≠ "/msteamssync"
  ∨ (hd "" afterCommand ≠ "link" ∧ hd "" afterCommand ≠ "unlink"
     ∧ hd "" afterCommand ≠ "show") →
  ExecuteCommand api client GetTeam channelDetails Fields args argsCommand p
  = Ok (if decide (command = "/msteamssync")
        then cmdError (args_ChannelId args)
               "Unknown command. Valid options: link, unlink and show."
        else emptyResponse) p.
Proof.
  intros Hwords Hcase. unfold ExecuteCommand. rewrite Hwords.
  change ("/" +:+ msteamsCommand) with "/msteamssync".
  destruct (decide (command ≠ "/msteamssync")) as [Hne|Heq].
  { destruct (decide (command = "/msteamssync")); [contradiction|reflexivity]. }
  destruct (decide (command = "/msteamssync")) as [Hc|Hc];
    [|destruct Heq; exact Hc].
  destruct Hcase as [Hne|(Hl & Hu & Hs)]; [contradiction|].
  destruct afterCommand as [|action rest']; simpl in *.
  - reflexivity.
  - destruct (decide (action = "link")); [contradiction|].
    destruct (decide (action = "unlink")); [contradiction|].
    destruct (decide (action = "show")); [contradiction|].
    reflexivity.
Qed.

(** X24.  A link command line with fewer than two words after [link] is
    turned down as invalid and changes nothing. *)
Theorem short_link_line_is_invalid args argsCommand rest p :
  Fields argsCommand = "/msteamssync" :: "link" :: rest →
  length rest < 2 →
  ExecuteCommand api client GetTeam channelDetails Fields args argsCommand p
  = Ok (cmdError (args_ChannelId args)
          "Invalid link command, please pass the MS Teams team id and channel id as parameters.")
       p.
Proof.
  intros Hwords Hshort. unfold ExecuteCommand. rewrite Hwords.
  destruct rest as [|t [|c rest]]; simpl in Hshort; [| |lia]; reflexivity.
Qed.

End DispatchProperties.

(** ** The test data *)

Lemma appendLoop_replicate {A} (x : A) (count : Z) (fuel : nat) :
  ∀ (i : Z) (acc : list A),
    (Z.to_nat (count - i) ≤ fuel)%nat →
    testutils.appendLoop fuel i count x acc
    = (acc ++ replicate (Z.to_nat (count - i)) x)%list.
Proof.
  induction fuel as [|fuel IH]; intros i acc Hfuel; simpl.
  - replace (Z.to_nat (count - i)) with 0 by lia.
    rewrite app_nil_r. reflexivity.
  - destruct (Z.ltb_spec i count) as [Hlt|Hge].
    + rewrite IH by lia.
      replace (Z.to_nat (count - i)) with (S (Z.to_nat (count - (i + 1))))
        by lia.
      simpl. rewrite <- app_assoc. reflexivity.
    + replace (Z.to_nat (count - i)) with 0 by lia.
      rewrite app_nil_r. reflexivity.
Qed.

(** X25.  The list builders of the test data return [count] copies of
    their fixed entry, and the empty list for a count that is zero or
    negative. *)
Theorem test_lists_have_count_entries (count : Z) :
  testutils.GetChannelMembers count
  = replicate (Z.to_nat count)
      (testutils.mkChannelMember testutils.GetID testutils.GetChannelID)
  ∧ testutils.GetChannelLinks count
    = replicate (Z.to_nat count)
        (testutils.mkStoredLink testutils.GetTeamID testutils.GetChannelID
           "Test MM team" "Test MM channel"
           testutils.GetTeamsTeamID testutils.GetTeamsChannelID)
  ∧ testutils.GetConnectedUsers count
    = replicate (Z.to_nat count)
        (testutils.mkConnectedUser testutils.GetUserID
           testutils.GetTeamsUserID).
Proof.
  unfold testutils.GetChannelMembers, testutils.GetChannelLinks,
    testutils.GetConnectedUsers.
  rewrite !appendLoop_replicate by lia.
  rewrite Z.sub_0_r. done.
Qed.

(** ** A start that fails and the commands after it *)

Section UnloadedPlugin.

Context (api : API) (client : Client).

(** [start] either leaves the registry alone or installs a snapshot
    that decoded. *)
Lemma start_registry p p' :
  start api client p = Ok tt p' →
  channelsLinked p' = channelsLinked p
  ∨ ∃ decoded,
      json_Unmarshal api (default "" (kv p !! "channelsLinked"))
        = (decoded, None)
      ∧ channelsLinked p' = Some decoded.
Proof.
  intros Hrun.
  destruct (NewApp client (calls p)) as [e|] eqn:Happ.
  { left. revert Hrun.
    unfold start, connectTeamsAppClient. run. rewrite Happ. run.
    intros [= <-]. reflexivity. }
  destruct (NewBot client (calls p ++ [CallNewApp])) as [e|] eqn:Hbot.
  { left. revert Hrun.
    unfold start, connectTeamsAppClient, connectTeamsBotClient. run.
    rewrite Happ. run. rewrite Hbot. run. intros [= <-]. reflexivity. }
  destruct (API_KVGetErr api "channelsLinked") as [e|] eqn:Hget.
  { left. revert Hrun.
    unfold start, connectTeamsAppClient, connectTeamsBotClient. run.
    rewrite Happ. run. rewrite Hbot. run. rewrite Hget. run.
    intros [= <-]. reflexivity. }
  destruct (json_Unmarshal api (default "" (kv p !! "channelsLinked")))
    as [decoded [e|]] eqn:Hdec.
  { left. revert Hrun.
    unfold start, connectTeamsAppClient, connectTeamsBotClient. run.
    rewrite Happ. run. rewrite Hbot. run. rewrite Hget. run.
    rewrite Hdec. run. intros [= <-]. reflexivity. }
  right. exists decoded. split; [reflexivity|].
  destruct (start_loads api client p decoded Happ Hbot Hget Hdec)
    as (p2 & new & Hrun2 & Hl & _).
  rewrite Hrun2 in Hrun. injection Hrun as <-. exact Hl.
Qed.

(** X26.  After a [start] on a fresh plugin that could not decode the
    stored snapshot, the link map is still missing, and a link command
    that passes its checks and finds the MS Teams channel panics. *)
Theorem link_after_refused_start_panics
    p p1 decoded err args teamID channelID rest channel :
  channelsLinked p = None →
  json_Unmarshal api (default "" (kv p !! "channelsLinked"))
    = (decoded, Some err) →
  start api client p = Ok tt p1 →
  checkEnabledTeamByTeamId api (args_TeamId args) = true →
  API_GetChannel api (args_ChannelId args) = Some channel →
  canLinkChannel api channel args = true →
  GetChannel client (calls p1) teamID channelID = Success tt →
  executeLinkCommand api client args (teamID :: channelID :: rest) p1 = Panic.
Proof.
  intros Hnil Hbad Hstart Hen Hch Hcan Hget.
  assert (channelsLinked p1 = None) as Hnil1.
  { destruct (start_registry p p1 Hstart) as [->|(d & Hd & _)];
      [exact Hnil|congruence]. }
  apply (link_on_unloaded_registry_panics api client args teamID channelID
           rest channel p1); assumption.
Qed.

End UnloadedPlugin.

(** * The further properties on the small installation *)

Lemma getURL_trailing_slash_witness :
  getURL demoAPISlash = getURL (demoAPI None).
Proof.
  apply (getURL_trailing_slash (demoAPI None) demoAPISlash); reflexivity.
Defined.


(** The handler on the small installation, where the server knows only
    [C1] and [uid]: a post in another channel panics it. *)
Example post_in_unknown_channel_panics :
  MessageHasBeenPosted (demoAPI None) (demoClient true)
    (mkPost "post5" "C9" "uid" "" "hello" None) demoLinked = Panic.
Proof. vm_compute. reflexivity. Qed.

Lemma handler_keeps_registry_witness :
  channelsLinked demoHandled = channelsLinked demoLinked
  ∧ subscriptionsToLinks demoHandled = subscriptionsToLinks demoLinked
  ∧ renewals demoHandled = renewals demoLinked
  ∧ ephemeralPosts demoHandled = ephemeralPosts demoLinked
  ∧ userID demoHandled = userID demoLinked.
Proof.
  apply (handler_keeps_registry (demoAPI None) (demoClient true) demoPost
           demoLinked demoHandled).
  vm_compute. reflexivity.
Defined.

Lemma props_count_only_through_marker_witness :
  MessageHasBeenPosted (demoAPI None) (demoClient true) demoStringPost
    demoLinked
  = MessageHasBeenPosted (demoAPI None) (demoClient true)
      (withoutProps demoStringPost) demoLinked.
Proof.
  apply (props_count_only_through_marker (demoAPI None) (demoClient true)
           demoStringPost demoLinked).
  vm_compute. reflexivity.
Defined.

Lemma reply_is_sent_under_recorded_parent_witness :
  ∃ r p2,
    Send (demoAPI None) (demoClient true) demoLink (Some demoUser) demoReply
      demoForwarded = Ok r p2
    ∧ calls p2 =
        (calls demoForwarded ++
           [CallSendMessage "rT" "rC" "remote1"
              (messageText demoUser demoReply)])%list.
Proof.
  apply (reply_is_sent_under_recorded_parent (demoAPI None) (demoClient true)
           demoLink demoUser demoPost demoLinked "remote1" demoForwarded
           demoLink demoUser demoReply);
    try reflexivity; discriminate.
Defined.

Lemma reply_to_unrecorded_root_is_top_level_witness :
  ∃ r p',
    Send (demoAPI None) (demoClient true) demoLink (Some demoUser) demoReply
      demoLinked = Ok r p'
    ∧ calls p' =
        (calls demoLinked ++
           [CallSendMessage "rT" "rC" "" (messageText demoUser demoReply)])%list.
Proof.
  apply (reply_to_unrecorded_root_is_top_level (demoAPI None) (demoClient true)
           demoLink demoUser demoReply demoLinked).
  vm_compute. reflexivity.
Defined.

Lemma failed_command_leaves_store_witness :
  kv demoLinkRefused = kv demoPlugin
  ∧ kv demoUnsubscribeRefused = kv demoLinked.
Proof.
  split.
  - apply (proj1 (failed_command_leaves_store storeDown (demoClient true))
             demoArgs ["rT"; "rC"] demoPlugin
             (cmdError "C1" storeFailedText) demoLinkRefused).
    + vm_compute. reflexivity.
    + discriminate.
  - apply (proj2 (failed_command_leaves_store (demoAPI None) downClient)
             demoArgs demoLinked
             (cmdError "C1"
                "Unable to store unsubscribe from channel, please try again.")
             demoUnsubscribeRefused).
    + vm_compute. reflexivity.
    + discriminate.
Defined.

Lemma direct_and_group_channels_stay_unlinked_witness :
  (∀ parameters,
     ∃ r, executeLinkCommand demoDirectAPI (demoClient true) demoDirectArgs
            parameters demoPlugin = Ok r demoPlugin
          ∧ r ≠ emptyResponse)
  ∧ executeUnlinkCommand demoDirectAPI (demoClient true) demoDirectArgs
      demoPlugin =
      Ok (cmdError "D1"
            "Unable to unlink the channel, you has to be a channel admin to unlink it.")
         demoPlugin.
Proof.
  apply (direct_and_group_channels_stay_unlinked demoDirectAPI
           (demoClient true) demoDirectArgs
           (mkChannel "D1" "" ChannelTypeDirect) demoPlugin).
  - reflexivity.
  - left. reflexivity.
Defined.

Lemma refused_subscription_leaves_link_unsaved_witness :
  ∃ p',
    executeLinkCommand (demoAPI None) noSubscriptionClient demoArgs
      ["rT"; "rC"] demoPlugin =
      Ok (cmdError "C1"
            "Unable to subscribe to channel, probably it is already link to another channel.")
         p'
    ∧ channelsLinked p' = Some (<["T1:C1" := demoLink]> ∅)
    ∧ kv p' = kv demoPlugin
    ∧ renewals p' = renewals demoPlugin
    ∧ subscriptionsToLinks p' = subscriptionsToLinks demoPlugin
    ∧ executeLinkCommand (demoAPI None) noSubscriptionClient demoArgs
        ["rT"; "rC"] p' =
        Ok (cmdError "C1" alreadyLinkedText) p'.
Proof.
  apply (refused_subscription_leaves_link_unsaved (demoAPI None)
           noSubscriptionClient demoArgs "rT" "rC" [] demoChannel ∅
           demoPlugin "subscription refused");
    reflexivity.
Defined.

Lemma successful_link_registers_subscription_witness :
  ∃ channel teamID channelID rest idx subscriptionID,
    ["rT"; "rC"] = teamID :: channelID :: rest
    ∧ API_GetChannel (demoAPI None) "C1" = Some channel
    ∧ subscriptionsToLinks demoPlugin = Some idx
    ∧ calls demoLinked =
        (calls demoPlugin ++
           [CallGetChannel teamID channelID;
            CallSubscribeToChannel teamID channelID
              (getURL (demoAPI None) +:+ "/")])%list
    ∧ subscriptionsToLinks demoLinked =
        Some (<[subscriptionID := linkFor channel teamID channelID]> idx)
    ∧ renewals demoLinked = (renewals demoPlugin ++ [subscriptionID])%list
    ∧ ephemeralPosts demoLinked =
        (ephemeralPosts demoPlugin ++
           [("uid", "C1",
             "The MS Teams channel is now linked to this Mattermost channel")])%list.
Proof.
  apply (successful_link_registers_subscription (demoAPI None)
           (demoClient true) demoArgs ["rT"; "rC"] demoPlugin demoLinked).
  vm_compute. reflexivity.
Defined.


Lemma commands_keep_other_links_witness :
  map_index (channelsLinked demoLinked) "T2:C2"
  = map_index (channelsLinked demoPlugin) "T2:C2"
  ∧ map_index (channelsLinked demoUnlinked) "T2:C2"
    = map_index (channelsLinked demoLinked) "T2:C2".
Proof.
  assert (∀ channel,
            API_GetChannel (demoAPI None) (args_ChannelId demoArgs)
              = Some channel →
            "T2:C2" ≠ linkKey channel) as Hother.
  { intros channel Hch. injection Hch as <-. discriminate. }
  split.
  - apply (proj1 (commands_keep_other_links (demoAPI None) (demoClient true)
                    demoArgs "T2:C2" Hother)
             ["rT"; "rC"] demoPlugin emptyResponse demoLinked).
    vm_compute. reflexivity.
  - apply (proj2 (commands_keep_other_links (demoAPI None) (demoClient true)
                    demoArgs "T2:C2" Hother)
             demoLinked emptyResponse demoUnlinked).
    vm_compute. reflexivity.
Defined.

Lemma refused_unsubscribe_keeps_link_witness :
  channelsLinked demoUnsubscribeRefused = channelsLinked demoLinked
  ∧ kv demoUnsubscribeRefused = kv demoLinked
  ∧ ∃ channel link,
      API_GetChannel (demoAPI None) "C1" = Some channel
      ∧ Lookup demoUnsubscribeRefused channel = Some link.
Proof.
  apply (refused_unsubscribe_keeps_link (demoAPI None) downClient demoArgs
           demoLinked
           (cmdError "C1"
              "Unable to store unsubscribe from channel, please try again.")
           demoUnsubscribeRefused).
  - vm_compute. reflexivity.
  - reflexivity.
Defined.

Lemma stored_snapshot_matches_registry_witness :
  kv demoLinked !! "channelsLinked"
  = Some (demoMarshal (channelsLinked demoLinked))
  ∧ kv demoUnlinked !! "channelsLinked"
    = Some (demoMarshal (channelsLinked demoUnlinked)).
Proof.
  split.
  - apply (proj1 (stored_snapshot_matches_registry (demoAPI None)
                    (demoClient true))
             demoArgs ["rT"; "rC"] demoPlugin demoLinked).
    vm_compute. reflexivity.
  - apply (proj2 (stored_snapshot_matches_registry (demoAPI None)
                    (demoClient true))
             demoArgs demoLinked demoUnlinked).
    vm_compute. reflexivity.
Defined.



Lemma failed_renewal_keeps_subscription_indexed_witness :
  ∃ p',
    subscribeToChannel (demoAPI None) expiringClient demoLink demoPlugin
      = Ok (Returned (Some "expired")) p'
    ∧ subscriptionsToLinks p' = Some (<["sub1" := demoLink]> ∅)
    ∧ logs p' =
        (logs demoPlugin ++ [LogError "error updating subscription"])%list.
Proof.
  apply (failed_renewal_keeps_subscription_indexed (demoAPI None)
           expiringClient demoLink demoPlugin ∅ "sub1" "expired");
    reflexivity.
Defined.

Lemma link_survives_restart_witness :
  ∃ p2 channel,
    start roundTripAPI (demoClient true) demoLinked = Ok tt p2
    ∧ channelsLinked p2 = Some {[ "T1:C1" := demoLink ]}
    ∧ API_GetChannel roundTripAPI "C1" = Some channel
    ∧ is_Some (Lookup p2 channel).
Proof.
  apply (link_survives_restart roundTripAPI (demoClient true) demoArgs
           ["rT"; "rC"] demoPlugin demoLinked {[ "T1:C1" := demoLink ]});
    first [reflexivity | vm_compute; reflexivity].
Defined.

Lemma ExecuteCommand_panics_only_on_empty_line_witness :
  ExecuteCommand (demoAPI None) (demoClient true) demoGetTeam
    demoChannelDetails demoFields demoArgs "" demoLinked = Panic
  ↔ demoFields "" = [].
Proof.
  apply (ExecuteCommand_panics_only_on_empty_line (demoAPI None)
           (demoClient true) demoGetTeam demoChannelDetails demoFields
           demoArgs "" demoLinked).
  - vm_compute. eexists. reflexivity.
  - vm_compute. eexists. reflexivity.
Defined.

Lemma foreign_or_unknown_command_changes_nothing_witness :
  ExecuteCommand (demoAPI None) (demoClient true) demoGetTeam
    demoChannelDetails demoFields demoArgs "/msteamssync help" demoLinked
  = Ok (cmdError "C1"
          "Unknown command. Valid options: link, unlink and show.")
       demoLinked.
Proof.
  apply (foreign_or_unknown_command_changes_nothing (demoAPI None)
           (demoClient true) demoGetTeam demoChannelDetails demoFields
           demoArgs "/msteamssync help" "/msteamssync" ["help"] demoLinked).
  - reflexivity.
  - right. split_and!; discriminate.
Defined.

Lemma short_link_line_is_invalid_witness :
  ExecuteCommand (demoAPI None) (demoClient true) demoGetTeam
    demoChannelDetails demoFields demoArgs "/msteamssync link rT" demoPlugin
  = Ok (cmdError "C1"
          "Invalid link command, please pass the MS Teams team id and channel id as parameters.")
       demoPlugin.
Proof.
  apply (short_link_line_is_invalid (demoAPI None) (demoClient true)
           demoGetTeam demoChannelDetails demoFields demoArgs
           "/msteamssync link rT" ["rT"] demoPlugin).
  - reflexivity.
  - simpl. lia.
Defined.

(** The show command on the linked [C1] tells the user the MS Teams
    channel and team by name and ID. *)
Example show_tells_the_link :
  (ephemeralPosts <$> state_of
     (ExecuteCommand (demoAPI None) (demoClient true) demoGetTeam
        demoChannelDetails demoFields demoArgs "/msteamssync show"
        demoLinked))
  = Some (ephemeralPosts demoLinked ++
            [("uid", "C1",
              showText (mkChannelInfo "rC" "Channel")
                (mkTeamInfo "rT" "Team"))])%list.
Proof. vm_compute. reflexivity. Qed.

Lemma link_after_refused_start_panics_witness :
  executeLinkCommand (demoAPI None) (demoClient true) demoArgs ["rT"; "rC"]
    demoFreshStarted = Panic.
Proof.
  apply (link_after_refused_start_panics (demoAPI None) (demoClient true)
           demoFresh demoFreshStarted ∅ "unexpected end of JSON input"
           demoArgs "rT" "rC" [] demoChannel);
    first [reflexivity | vm_compute; reflexivity].
Defined.
